(** * ROE engine of realtyvest-ai: a shallow embedding of
    [src/features/roe_calculator.py] and the properties of its specification.

    Numbers.  Python [int] and [float] values are embedded as exact rationals
    ([Q]); equality of numbers is [Qeq] ([==]).  Rounding, overflow, infinities
    and NaN of IEEE doubles are outside the model, so a cell of a table is a
    finite number, text or [None].  Python exceptions are explicit: every
    operation that can raise returns a [result].  A pandas DataFrame is the
    list of its rows, each row a dict from column name to cell. *)

From Stdlib Require Import QArith Qpower Qround Qabs Lqa Lia ZArith List Bool.
From Stdlib Require Import Ascii String DecimalString.
From stdpp Require Import gmap strings.

Open Scope Q_scope.

(** ** Exceptions *)

Inductive exn : Type :=
| KeyError (key : string)
| TypeError
| ValueError
| ZeroDivisionError.

Inductive result (A : Type) : Type :=
| Ok (a : A)
| Raise (e : exn).
Arguments Ok {A} a.
Arguments Raise {A} e.

(** Sequencing: the first exception raised ends the computation.  With this
    instance stdpp's [x ← m; k] reads as a Python statement sequence. *)
#[export] Instance result_bind : MBind result :=
  fun A B (k : A -> result B) (m : result A) =>
    match m with
    | Ok a => k a
    | Raise e => Raise e
    end.

(** ** Python arithmetic on numbers *)

(** [a > b], [a >= b], [a < b] and [a == b]. *)
Definition py_gt (a b : Q) : bool := negb (Qle_bool a b).
Definition py_ge (a b : Q) : bool := Qle_bool b a.
Definition py_lt (a b : Q) : bool := negb (Qle_bool b a).
Definition py_eq (a b : Q) : bool := Qeq_bool a b.

(** [max(a, b)] and [min(a, b)] return the first argument unless the second
    is strictly larger (smaller). *)
Definition py_max (a b : Q) : Q := if py_gt b a then b else a.
Definition py_min (a b : Q) : Q := if py_lt b a then b else a.

(** [a / b]: true division, raising on a zero divisor.  The quotient is kept
    in lowest terms ([Qred q == q]), which changes no number and keeps the
    model executable. *)
Definition py_div (a b : Q) : result Q :=
  if py_eq b 0 then Raise ZeroDivisionError else Ok (Qred (a / b)).

(** [a ** n] with an [int] exponent: zero to a negative power raises. *)
Definition py_pow (a : Q) (n : Z) : result Q :=
  if py_eq a 0 && (n <? 0)%Z then Raise ZeroDivisionError
  else Ok (Qred (a ^ n)).

(** ** Tiers *)

Inductive tier_key : Type := unicorn | strong | marginal | pass.

Record tier_info : Type := mk_tier {
  tier_min : Q;
  tier_color : string;
  tier_icon : string;
  tier_label : string
}.

(** [ROE_TIERS], a dict with four constant keys. *)
Definition ROE_TIERS (k : tier_key) : tier_info :=
  match k with
  | unicorn => mk_tier 0.20 "purple" "star" "🦄 UNICORN"
  | strong => mk_tier 0.15 "green" "home" "🟢 Strong Buy"
  | marginal => mk_tier 0.10 "orange" "info-sign" "🟡 Marginal"
  | pass => mk_tier 0.00 "red" "remove" "🔴 Pass"
  end.

Definition get_roe_tier (roe : Q) : tier_info :=
  if py_ge roe 0.20 then ROE_TIERS unicorn
  else if py_ge roe 0.15 then ROE_TIERS strong
  else if py_ge roe 0.10 then ROE_TIERS marginal
  else ROE_TIERS pass.

(** ** Dynamically typed values: the cells of a table and of a result dict *)

Inductive pyval : Type :=
| VNone
| VBool (b : bool)
| VNum (q : Q)
| VStr (s : string)
| VTier (t : tier_info).

(** Truth value of a cell, as [if x] and [x and y] take it. *)
Definition py_truthy (v : pyval) : bool :=
  match v with
  | VNone => false
  | VBool b => b
  | VNum q => negb (py_eq q 0)
  | VStr s => negb (String.eqb s "")
  | VTier _ => true
  end.

(** A cell in a numeric position: arithmetic on [None], text or a dict raises
    [TypeError]; a [bool] is the number 0 or 1. *)
Definition as_num (v : pyval) : result Q :=
  match v with
  | VNum q => Ok q
  | VBool b => Ok (if b then 1 else 0)
  | _ => Raise TypeError
  end.

(** [v in l] for a list of string literals: only an equal string is a member. *)
Definition py_in (v : pyval) (l : list string) : bool :=
  match v with
  | VStr s => existsb (String.eqb s) l
  | _ => false
  end.

(** ** The calculator *)

(** The assumptions fixed by [ROECalculator.__init__]. *)
Record ROECalculator : Type := mk_calc {
  opex_ratio : Q;
  down_pct : Q;
  rate : Q;
  term : Z;
  appreciation : Q
}.

Definition default_calculator : ROECalculator :=
  mk_calc 0.35 0.25 0.07 30 0.0.

Definition high_rent_zips : list string :=
  ["75201"; "75204"; "75205"; "75219"; "75225"; "76107"; "76109"]%string.
Definition mid_rent_zips : list string :=
  ["75206"; "75214"; "75218"; "75223"; "75235"; "76102"; "76104"; "76105"]%string.

Definition base_rate_of (zip_code : pyval) : Q :=
  if py_in zip_code high_rent_zips then 1.40
  else if py_in zip_code mid_rent_zips then 1.20
  else 1.00.

Definition estimate_market_rent (zip_code : pyval) (sqft_per_unit : Q) : Q :=
  let base_rate := base_rate_of zip_code in
  let monthly_rent := sqft_per_unit * base_rate in
  py_max 800 (py_min monthly_rent 2500).

Definition calculate_mortgage_payment
    (loan_amount annual_rate : Q) (years : Z) : result Q :=
  let monthly_rate := annual_rate / 12 in
  let num_payments := (years * 12)%Z in
  if py_eq monthly_rate 0 then py_div loan_amount (inject_Z num_payments)
  else
    growth ← py_pow (1 + monthly_rate) num_payments;
    py_div (loan_amount * (monthly_rate * growth)) (growth - 1).

(** One pass of the body of the month loop, on the pair
    [(balance, total_principal)]; both are kept in lowest terms. *)
Definition month_step (monthly_payment monthly_rate : Q) (st : Q * Q) : Q * Q :=
  let '(balance, total_principal) := st in
  let interest_payment := balance * monthly_rate in
  let principal_payment := monthly_payment - interest_payment in
  (Qred (balance - principal_payment),
   Qred (total_principal + principal_payment)).

(** [for _ in range(months)] over the loop body. *)
Fixpoint amortize (months : nat) (monthly_payment monthly_rate : Q)
    (st : Q * Q) : Q * Q :=
  match months with
  | O => st
  | S k => amortize k monthly_payment monthly_rate
             (month_step monthly_payment monthly_rate st)
  end.

Definition calculate_principal_paydown_year1
    (loan_amount monthly_payment annual_rate : Q) : Q :=
  let monthly_rate := annual_rate / 12 in
  snd (amortize 12 monthly_payment monthly_rate (loan_amount, 0)).

(** The balance left after [months] payments of the same simulation. *)
Definition ending_balance
    (loan_amount monthly_payment annual_rate : Q) (months : nat) : Q :=
  let monthly_rate := annual_rate / 12 in
  fst (amortize months monthly_payment monthly_rate (loan_amount, 0)).

(** The dict returned by [calculate_roe], one field per key. *)
Record roe_result : Type := mk_roe {
  r_purchase_price : Q;
  r_units : Q;
  r_monthly_rent_per_unit : Q;
  r_zip_code : pyval;
  r_down_payment : Q;
  r_loan_amount : Q;
  r_monthly_payment : Q;
  r_annual_gross_rent : Q;
  r_annual_opex : Q;
  r_opex_ratio : Q;
  r_noi : Q;
  r_annual_debt_service : Q;
  r_cash_flow : Q;
  r_principal_paydown : Q;
  r_appreciation : Q;
  r_total_return : Q;
  r_roe : Q;
  r_coc : Q;
  r_cap_rate : Q;
  r_meets_hurdle : bool;
  r_tier : tier_info
}.

(** [sqft / units if sqft and units else 1000] *)
Definition sqft_per_unit_of (sqft units : pyval) : result Q :=
  if py_truthy sqft && py_truthy units then
    s ← as_num sqft; u ← as_num units; py_div s u
  else Ok 1000.

Definition calculate_roe (self : ROECalculator)
    (purchase_price units sqft zip_code : pyval)
    (monthly_rent_per_unit : option Q) : result roe_result :=
  monthly_rent_per_unit ←
    (match monthly_rent_per_unit with
    | Some rent => Ok rent
    | None =>
        sqft_per_unit ← sqft_per_unit_of sqft units;
        Ok (estimate_market_rent zip_code sqft_per_unit)
    end);
  units ← as_num units;
  let annual_gross_rent := monthly_rent_per_unit * units * 12 in
  let annual_opex := annual_gross_rent * opex_ratio self in
  let noi := annual_gross_rent - annual_opex in
  purchase_price ← as_num purchase_price;
  let down_payment := purchase_price * down_pct self in
  let loan_amount := purchase_price - down_payment in
  monthly_payment ←
    calculate_mortgage_payment loan_amount (rate self) (term self);
  let annual_debt_service := monthly_payment * 12 in
  let cash_flow := noi - annual_debt_service in
  let principal_year1 :=
    calculate_principal_paydown_year1 loan_amount monthly_payment (rate self) in
  let appreciation_value := purchase_price * appreciation self in
  let total_return := cash_flow + principal_year1 + appreciation_value in
  let roe := if py_gt down_payment 0 then total_return / down_payment else 0 in
  let coc := if py_gt down_payment 0 then cash_flow / down_payment else 0 in
  let cap_rate := if py_gt purchase_price 0 then noi / purchase_price else 0 in
  Ok {| r_purchase_price := purchase_price;
        r_units := units;
        r_monthly_rent_per_unit := monthly_rent_per_unit;
        r_zip_code := zip_code;
        r_down_payment := down_payment;
        r_loan_amount := loan_amount;
        r_monthly_payment := monthly_payment;
        r_annual_gross_rent := annual_gross_rent;
        r_annual_opex := annual_opex;
        r_opex_ratio := opex_ratio self;
        r_noi := noi;
        r_annual_debt_service := annual_debt_service;
        r_cash_flow := cash_flow;
        r_principal_paydown := principal_year1;
        r_appreciation := appreciation_value;
        r_total_return := total_return;
        r_roe := roe;
        r_coc := coc;
        r_cap_rate := cap_rate;
        r_meets_hurdle := py_ge roe 0.15;
        r_tier := get_roe_tier roe |}.

(** ** The batch: a table is a list of rows, a row a dict of cells *)

(** [row[key]] *)
Definition getitem (row : gmap string pyval) (key : string) : result pyval :=
  match row !! key with
  | Some v => Ok v
  | None => Raise (KeyError key)
  end.

(** [row.get(key, default)] *)
Definition row_get (row : gmap string pyval) (key : string) (dflt : pyval)
    : pyval :=
  default dflt (row !! key).

(** The dict literal that [calculate_roe] returns. *)
Definition to_dict (r : roe_result) : gmap string pyval :=
  list_to_map
    [("purchase_price", VNum (r_purchase_price r));
     ("units", VNum (r_units r));
     ("monthly_rent_per_unit", VNum (r_monthly_rent_per_unit r));
     ("zip_code", r_zip_code r);
     ("down_payment", VNum (r_down_payment r));
     ("loan_amount", VNum (r_loan_amount r));
     ("monthly_payment", VNum (r_monthly_payment r));
     ("annual_gross_rent", VNum (r_annual_gross_rent r));
     ("annual_opex", VNum (r_annual_opex r));
     ("opex_ratio", VNum (r_opex_ratio r));
     ("noi", VNum (r_noi r));
     ("annual_debt_service", VNum (r_annual_debt_service r));
     ("cash_flow", VNum (r_cash_flow r));
     ("principal_paydown", VNum (r_principal_paydown r));
     ("appreciation", VNum (r_appreciation r));
     ("total_return", VNum (r_total_return r));
     ("roe", VNum (r_roe r));
     ("coc", VNum (r_coc r));
     ("cap_rate", VNum (r_cap_rate r));
     ("meets_hurdle", VBool (r_meets_hurdle r));
     ("tier", VTier (r_tier r))]%string.

(** The keys of that dict: the computed columns of the output table. *)
Definition metric_columns : list string :=
  ["purchase_price"; "units"; "monthly_rent_per_unit"; "zip_code";
   "down_payment"; "loan_amount"; "monthly_payment"; "annual_gross_rent";
   "annual_opex"; "opex_ratio"; "noi"; "annual_debt_service"; "cash_flow";
   "principal_paydown"; "appreciation"; "total_return"; "roe"; "coc";
   "cap_rate"; "meets_hurdle"; "tier"]%string.

(** What the logger receives. *)
Inductive log_record : Type :=
| InfoAnalyzing (n : nat)
| WarningFailed (address : pyval) (e : exn)
| InfoComplete (unicorns strong marginal : nat).

(** The call in the [try] block: the keyword arguments are read off the row
    in order, and no monthly rent is passed. *)
Definition roe_calc_of_row (self : ROECalculator) (row : gmap string pyval)
    : result roe_result :=
  purchase_price ← getitem row "price";
  units ← getitem row "units";
  let sqft := row_get row "sqft" VNone in
  zip_code ← getitem row "zip_code";
  calculate_roe self purchase_price units sqft zip_code None.

(** One iteration of the loop over the rows, on [(results, log)]:
    [{**row.to_dict(), **roe_calc}] is appended, or the failure is logged and
    the row skipped. *)
Definition process_row (self : ROECalculator)
    (st : list (gmap string pyval) * list log_record)
    (row : gmap string pyval)
    : list (gmap string pyval) * list log_record :=
  let '(results, log) := st in
  match roe_calc_of_row self row with
  | Ok roe_calc => (results ++ [to_dict roe_calc ∪ row], log)
  | Raise e =>
      (results,
       log ++ [WarningFailed (row_get row "address" (VStr "unknown")) e])
  end.

(** [pd.DataFrame(results)]: its columns are the keys that occur in some
    dict; [df[key]] raises [KeyError] for any other key, and a cell missing
    from a row is not a number. *)
Definition has_column (df : list (gmap string pyval)) (key : string) : bool :=
  existsb (fun r => bool_decide (is_Some (r !! key))) df.

Definition df_getitem (df : list (gmap string pyval)) (key : string)
    : result (list pyval) :=
  if has_column df key then Ok (map (fun r => row_get r key VNone) df)
  else Raise (KeyError key).

(** [len(df[(df[col] >= lo) & (df[col] < hi)])], without the upper bound when
    [hi] is [None]. *)
Definition count_between (col : list pyval) (lo : Q) (hi : option Q) : nat :=
  length (List.filter (fun v =>
    match v with
    | VNum q => py_ge q lo && match hi with
                              | Some h => py_lt q h
                              | None => true
                              end
    | _ => false
    end) col).

Definition analyze_portfolio (self : ROECalculator)
    (properties_df : list (gmap string pyval))
    : list log_record * result (list (gmap string pyval)) :=
  let log := [InfoAnalyzing (length properties_df)] in
  let '(results, log) := foldl (process_row self) ([], log) properties_df in
  let result_df := results in
  match df_getitem result_df "roe" with
  | Raise e => (log, Raise e)
  | Ok roe =>
      let unicorns := count_between roe 0.20 None in
      let strong := count_between roe 0.15 (Some 0.20) in
      let marginal := count_between roe 0.10 (Some 0.15) in
      (log ++ [InfoComplete unicorns strong marginal], Ok result_df)
  end.

(** A row fails when the per-row calculation raises. *)
Definition row_fails (self : ROECalculator) (row : gmap string pyval) : bool :=
  match roe_calc_of_row self row with
  | Ok _ => false
  | Raise _ => true
  end.

(** ** The formatted summary *)

(** Python strings are [string]s; the digits of a number are assembled as
    lists of characters. *)

Definition digit_char (d : N) : ascii := ascii_of_N (48 + d).

(** The decimal digits of [n], without leading zeros. *)
Definition digits_of (n : N) : list ascii :=
  list_ascii_of_string (NilZero.string_of_uint (N.to_uint n)).

(** The [k] low-order decimal digits of [n], padded with zeros. *)
Fixpoint low_digits (k : nat) (n : N) : list ascii :=
  match k with
  | O => []
  | S k' => low_digits k' (n / 10) ++ [digit_char (n mod 10)]
  end.

(** The [,] option: a comma before every group of three digits, counted from
    the right; [group3_rev] works on the reversed digits. *)
Fixpoint group3_rev (l : list ascii) : list ascii :=
  match l with
  | a :: b :: c :: ((_ :: _) as rest) =>
      a :: b :: c :: ","%char :: group3_rev rest
  | _ => l
  end.

Definition group3 (ds : list ascii) : list ascii :=
  rev (group3_rev (rev ds)).

(** Rounding of a non-negative number to the nearest integer, ties to even,
    as the conversion of a number to a fixed number of decimals does. *)
Definition round_half_even (q : Q) : Z :=
  let f := Qfloor q in
  match Qcompare (q - inject_Z f) (1 # 2) with
  | Lt => f
  | Gt => (f + 1)%Z
  | Eq => if Z.even f then f else (f + 1)%Z
  end.

(** The format specifications of the summary: [.N%] and [.Nf] with or without
    the [,] option. *)
Inductive format_spec : Type :=
| FPercent (prec : nat)
| FFixed (grouping : bool) (prec : nat).

(** [format(q, ".Nf")], with the [,] option when [grouping]: sign, integer
    part, and the point with [prec] decimals when [prec > 0]. *)
Definition format_fixed (grouping : bool) (prec : nat) (q : Q) : list ascii :=
  let scaled :=
    Z.to_N (round_half_even (Qabs q * inject_Z (10 ^ Z.of_nat prec))) in
  let int_part := digits_of (scaled / 10 ^ N.of_nat prec) in
  (if py_lt q 0 then ["-"%char] else [])
  ++ (if grouping then group3 int_part else int_part)
  ++ match prec with
     | O => []
     | S _ => "."%char :: low_digits prec scaled
     end.

Definition py_format (spec : format_spec) (q : Q) : string :=
  string_of_list_ascii
    match spec with
    | FFixed grouping prec => format_fixed grouping prec q
    | FPercent prec => format_fixed false prec (q * 100) ++ ["%"%char]
    end.

(** The parts of an f-string: literal text, a repeated string ([{'='*60}]),
    the tier label ([{tier['label']}]) and a formatted value
    ([{roe_data[key]:spec}]). *)
Inductive segment : Type :=
| Lit (s : string)
| Rep (s : string) (n : nat)
| TierLabel
| Fld (key : string) (spec : format_spec).

(** A value under a numeric format: text raises [ValueError], [None] and a
    dict raise [TypeError]. *)
Definition as_formattable (v : pyval) : result Q :=
  match v with
  | VNum q => Ok q
  | VBool b => Ok (if b then 1 else 0)
  | VStr _ => Raise ValueError
  | _ => Raise TypeError
  end.

(** [s * n] *)
Fixpoint str_repeat (s : string) (n : nat) : string :=
  match n with
  | O => ""
  | S n' => s +:+ str_repeat s n'
  end.

Definition render (roe_data : gmap string pyval) (label : string)
    (seg : segment) : result string :=
  match seg with
  | Lit s => Ok s
  | Rep s n => Ok (str_repeat s n)
  | TierLabel => Ok label
  | Fld key spec =>
      v ← getitem roe_data key;
      q ← as_formattable v;
      Ok (py_format spec q)
  end.

(** The parts are evaluated left to right and joined. *)
Fixpoint render_all (roe_data : gmap string pyval) (label : string)
    (segs : list segment) : result string :=
  match segs with
  | [] => Ok ""
  | seg :: segs' =>
      s ← render roe_data label seg;
      rest ← render_all roe_data label segs';
      Ok (s +:+ rest)
  end.

Definition nl : string := String (ascii_of_N 10) "".

(** The f-string of [format_roe_summary]. *)
Definition summary_template : list segment :=
  [Lit nl;
   Rep "=" 60; Lit nl;
   TierLabel; Lit " - ROE: "; Fld "roe" (FPercent 1); Lit nl;
   Rep "=" 60; Lit nl;
   Lit nl;
   Lit "Investment:"; Lit nl;
   Lit "  Purchase Price:        $"; Fld "purchase_price" (FFixed true 0);
   Lit nl;
   Lit "  Down Payment (25%):    $"; Fld "down_payment" (FFixed true 0);
   Lit nl;
   Lit "  Loan (75% @ 7%, 30yr): $"; Fld "loan_amount" (FFixed true 0);
   Lit nl;
   Lit nl;
   Lit "Property:"; Lit nl;
   Lit "  Units:                 "; Fld "units" (FFixed false 0); Lit nl;
   Lit "  Est. Rent/Unit:        $";
   Fld "monthly_rent_per_unit" (FFixed true 0); Lit "/mo"; Lit nl;
   Lit nl;
   Lit "Income:"; Lit nl;
   Lit "  Gross Rents:           $"; Fld "annual_gross_rent" (FFixed true 0);
   Lit "/yr"; Lit nl;
   Lit "  Operating Expenses:   -$"; Fld "annual_opex" (FFixed true 0);
   Lit "/yr ("; Fld "opex_ratio" (FPercent 0); Lit ")"; Lit nl;
   Lit "  Net Operating Income:  $"; Fld "noi" (FFixed true 0); Lit "/yr";
   Lit nl;
   Lit nl;
   Lit "Cash Flow:"; Lit nl;
   Lit "  NOI:                   $"; Fld "noi" (FFixed true 0); Lit nl;
   Lit "  Debt Service:         -$";
   Fld "annual_debt_service" (FFixed true 0); Lit nl;
   Lit "  Annual Cash Flow:      $"; Fld "cash_flow" (FFixed true 0);
   Lit " ("; Fld "coc" (FPercent 1); Lit " CoC)"; Lit nl;
   Lit nl;
   Lit "Year 1 Wealth Creation:"; Lit nl;
   Lit "  💵 Cash Flow:          $"; Fld "cash_flow" (FFixed true 0); Lit nl;
   Lit "  🏦 Principal Paydown:  $"; Fld "principal_paydown" (FFixed true 0);
   Lit nl;
   Lit "  📈 Appreciation:       $"; Fld "appreciation" (FFixed true 0);
   Lit " (0% assumption)"; Lit nl;
   Lit "  "; Rep "─" 60; Lit nl;
   Lit "  💰 Total Return:       $"; Fld "total_return" (FFixed true 0);
   Lit nl;
   Lit nl;
   Lit "🎯 RETURN ON EQUITY: "; Fld "roe" (FPercent 1); Lit nl;
   Lit "   Cap Rate: "; Fld "cap_rate" (FPercent 2); Lit nl;
   Rep "=" 60; Lit nl]%string.

(** [tier = roe_data['tier']], then the f-string with [tier['label']]. *)
Definition format_with (template : list segment)
    (roe_data : gmap string pyval) : result string :=
  tier ← getitem roe_data "tier";
  label ← match tier with
          | VTier t => Ok (tier_label t)
          | _ => Raise TypeError
          end;
  render_all roe_data label template.

Definition format_roe_summary (roe_data : gmap string pyval) : result string :=
  format_with summary_template roe_data.

(** The rendering as the specification words it: the same template with
    every percentage to one decimal place. *)
Definition one_decimal (seg : segment) : segment :=
  match seg with
  | Fld key (FPercent _) => Fld key (FPercent 1)
  | _ => seg
  end.

Definition summary_as_specified (roe_data : gmap string pyval)
    : result string :=
  format_with (map one_decimal summary_template) roe_data.

(** ** The dashboard ([app.py]): marker colour and icon of a property *)

Definition get_marker_color (roe : Q) : string :=
  if py_ge roe 0.20 then "purple"
  else if py_ge roe 0.15 then "green"
  else if py_ge roe 0.10 then "orange"
  else "red".

Definition get_marker_icon (roe : Q) : string :=
  if py_ge roe 0.20 then "star"
  else if py_ge roe 0.15 then "home"
  else if py_ge roe 0.10 then "info-sign"
  else "remove".

(** ** The report ([analyze_roe.py]): the ROE bands of the result table *)

(** The mask [(df['roe'] >= lo) & (df['roe'] < hi)] on one row, with either
    bound optional; a cell that is not a number is not selected. *)
Definition roe_mask (lo hi : option Q) (row : gmap string pyval) : bool :=
  match row_get row "roe" VNone with
  | VNum q =>
      match lo with
      | Some l => py_ge q l
      | None => true
      end
      && match hi with
         | Some h => py_lt q h
         | None => true
         end
  | _ => false
  end.

(** [df[mask]]: the selected rows in order; [df['roe']] raises [KeyError]
    on a table without the column. *)
Definition select_roe (df : list (gmap string pyval)) (lo hi : option Q)
    : result (list (gmap string pyval)) :=
  if has_column df "roe" then Ok (List.filter (roe_mask lo hi) df)
  else Raise (KeyError "roe").

Record roe_bands : Type := mk_bands {
  b_total : nat;
  b_unicorns : list (gmap string pyval);
  b_strong : list (gmap string pyval);
  b_marginal : list (gmap string pyval);
  b_poor : list (gmap string pyval)
}.

(** [total], [unicorns], [strong], [marginal] and [poor] of the report. *)
Definition portfolio_bands (results_df : list (gmap string pyval))
    : result roe_bands :=
  let total := length results_df in
  unicorns ← select_roe results_df (Some 0.20) None;
  strong ← select_roe results_df (Some 0.15) (Some 0.20);
  marginal ← select_roe results_df (Some 0.10) (Some 0.15);
  poor ← select_roe results_df None (Some 0.10);
  Ok (mk_bands total unicorns strong marginal poor).

(** [len(band) / total * 100], the percentage printed beside a count. *)
Definition band_share (count total : nat) : result Q :=
  q ← py_div (inject_Z (Z.of_nat count)) (inject_Z (Z.of_nat total));
  Ok (q * 100).

(** [pd.concat([unicorns, strong])], the exported target list. *)
Definition target_props (b : roe_bands) : list (gmap string pyval) :=
  b_unicorns b ++ b_strong b.

(** ** Auxiliary definitions of the proofs *)

(** An optional number as a cell: [None] or the number. *)
Definition opt_num (o : option Q) : pyval :=
  match o with
  | Some q => VNum q
  | None => VNone
  end.

(** [1 + x + ... + x^(k-1)], the factor of the payment in the balance. *)
Fixpoint geom (x : Q) (k : nat) : Q :=
  match k with
  | O => 0
  | S k' => geom x k' + x ^ Z.of_nat k'
  end.

(** The output row of an input row whose calculation succeeds. *)
Definition row_result (self : ROECalculator) (row : gmap string pyval)
    : option (gmap string pyval) :=
  match roe_calc_of_row self row with
  | Ok roe_calc => Some (to_dict roe_calc ∪ row)
  | Raise _ => None
  end.

(** The number K of failing rows of a table. *)
Definition failing_rows (self : ROECalculator)
    (df : list (gmap string pyval)) : nat :=
  length (List.filter (row_fails self) df).

(** Two rows that agree on every column but [c]. *)
Definition rows_agree_except (c : string) (r1 r2 : gmap string pyval) : Prop :=
  forall k : string, k <> c -> r1 !! k = r2 !! k.

(** Two output rows with the same value in every computed column. *)
Definition same_metrics (d1 d2 : gmap string pyval) : Prop :=
  forall k : string, In k metric_columns -> d1 !! k = d2 !! k.

(** A one-row table without a [price] column. *)
Definition table_without_price : list (gmap string pyval) :=
  [list_to_map [("address", VStr "123 Main St"); ("units", VNum 4);
                ("sqft", VNum 4000); ("zip_code", VStr "75201")]%string].

(** The columns that the batch reads for the calculation. *)
Definition input_columns : list string :=
  ["price"; "units"; "sqft"; "zip_code"]%string.

(** The rent of an output row is a number within the clamp bounds. *)
Definition rent_is_estimated (d : gmap string pyval) : Prop :=
  exists q, d !! "monthly_rent_per_unit"%string = Some (VNum q) /\
            800 <= q <= 2500.

(** The rent of the output row [d] is the estimate for the input row [row]:
    [estimate_market_rent] of the ZIP code of the row and of its square
    footage per unit ([sqft / units], or 1000 when either is missing or
    zero), whatever other columns the row has. *)
Definition rent_estimated_from (row d : gmap string pyval) : Prop :=
  exists zip_code units sqft_per_unit,
    row !! "zip_code"%string = Some zip_code /\
    row !! "units"%string = Some units /\
    sqft_per_unit_of (row_get row "sqft" VNone) units = Ok sqft_per_unit /\
    d !! "monthly_rent_per_unit"%string
      = Some (VNum (estimate_market_rent zip_code sqft_per_unit)).

(** Every row of [out] is the output row of a row of [table], with the rent
    estimated from that row. *)
Definition rents_estimated_from (self : ROECalculator)
    (table out : list (gmap string pyval)) : Prop :=
  Forall (fun d =>
    exists row, In row table /\ row_result self row = Some d /\
                rent_estimated_from row d) out.

(** Observations on a rendered number: its characters, the number of
    decimals after the point, and whether commas sit exactly before every
    group of three digits. *)
Definition is_digit (c : ascii) : bool :=
  (48 <=? N_of_ascii c)%N && (N_of_ascii c <=? 57)%N.

Fixpoint after_point (l : list ascii) : option (list ascii) :=
  match l with
  | [] => None
  | c :: l' => if Ascii.eqb c "." then Some l' else after_point l'
  end.

Fixpoint digit_run (l : list ascii) : nat :=
  match l with
  | c :: l' => if is_digit c then S (digit_run l') else O
  | [] => O
  end.

Definition fraction_digits (s : string) : nat :=
  match after_point (list_ascii_of_string s) with
  | Some t => digit_run t
  | None => O
  end.

(** From the right, position [i] holds a comma when [i mod 4 = 3] and a digit
    otherwise. *)
Fixpoint grouped_rev (i : nat) (l : list ascii) : bool :=
  match l with
  | [] => true
  | c :: l' =>
      (if (i mod 4 =? 3)%nat then Ascii.eqb c "," else is_digit c)
      && grouped_rev (S i) l'
  end.

Definition unsigned (l : list ascii) : list ascii :=
  match l with
  | c :: l' => if Ascii.eqb c "-" then l' else l
  | [] => []
  end.

Definition thousands_grouped (s : string) : bool :=
  let body := unsigned (list_ascii_of_string s) in
  negb (length body mod 4 =? 0)%nat && grouped_rev 0 (rev body).

(** The key of a formatted value of the template. *)
Definition field_key (seg : segment) : option string :=
  match seg with
  | Fld key _ => Some key
  | _ => None
  end.

(** Pieces joined in order. *)
Fixpoint join (l : list string) : string :=
  match l with
  | [] => ""
  | s :: l' => s +:+ join l'
  end.

(** The summary of a result record, line by line. *)
Definition summary_lines (r : roe_result) : list (list string) :=
  let money := py_format (FFixed true 0) in
  let pct := fun p => py_format (FPercent p) in
  [[];
   [str_repeat "=" 60];
   [tier_label (r_tier r); " - ROE: "; pct 1%nat (r_roe r)];
   [str_repeat "=" 60];
   [];
   ["Investment:"];
   ["  Purchase Price:        $"; money (r_purchase_price r)];
   ["  Down Payment (25%):    $"; money (r_down_payment r)];
   ["  Loan (75% @ 7%, 30yr): $"; money (r_loan_amount r)];
   [];
   ["Property:"];
   ["  Units:                 "; py_format (FFixed false 0) (r_units r)];
   ["  Est. Rent/Unit:        $"; money (r_monthly_rent_per_unit r); "/mo"];
   [];
   ["Income:"];
   ["  Gross Rents:           $"; money (r_annual_gross_rent r); "/yr"];
   ["  Operating Expenses:   -$"; money (r_annual_opex r); "/yr (";
    pct 0%nat (r_opex_ratio r); ")"];
   ["  Net Operating Income:  $"; money (r_noi r); "/yr"];
   [];
   ["Cash Flow:"];
   ["  NOI:                   $"; money (r_noi r)];
   ["  Debt Service:         -$"; money (r_annual_debt_service r)];
   ["  Annual Cash Flow:      $"; money (r_cash_flow r); " (";
    pct 1%nat (r_coc r); " CoC)"];
   [];
   ["Year 1 Wealth Creation:"];
   ["  💵 Cash Flow:          $"; money (r_cash_flow r)];
   ["  🏦 Principal Paydown:  $"; money (r_principal_paydown r)];
   ["  📈 Appreciation:       $"; money (r_appreciation r);
    " (0% assumption)"];
   ["  "; str_repeat "─" 60];
   ["  💰 Total Return:       $"; money (r_total_return r)];
   [];
   ["🎯 RETURN ON EQUITY: "; pct 1%nat (r_roe r)];
   ["   Cap Rate: "; pct 2%nat (r_cap_rate r)];
   [str_repeat "=" 60]]%string.

Definition summary_text (r : roe_result) : string :=
  join (flat_map (fun line => line ++ [nl]) (summary_lines r)).

(** The first step of [calculate_roe]: the known rent, or the estimate. *)
Definition resolve_rent (sqft units zip_code : pyval)
    (monthly_rent_per_unit : option Q) : result Q :=
  match monthly_rent_per_unit with
  | Some rent => Ok rent
  | None =>
      sqft_per_unit ← sqft_per_unit_of sqft units;
      Ok (estimate_market_rent zip_code sqft_per_unit)
  end.

(** The warning of an input row whose calculation raises. *)
Definition row_warning (self : ROECalculator) (row : gmap string pyval)
    : option log_record :=
  match roe_calc_of_row self row with
  | Ok _ => None
  | Raise e => Some (WarningFailed (row_get row "address" (VStr "unknown")) e)
  end.

(** An output row carries a numeric ROE with the tier and the hurdle flag
    computed from it. *)
Definition scored_row (d : gmap string pyval) : Prop :=
  exists q, d !! "roe"%string = Some (VNum q) /\
            d !! "tier"%string = Some (VTier (get_roe_tier q)) /\
            d !! "meets_hurdle"%string = Some (VBool (py_ge q 0.15)).

(** The tier and the flag written in a row. *)
Definition has_tier (t : tier_key) (d : gmap string pyval) : Prop :=
  d !! "tier"%string = Some (VTier (ROE_TIERS t)).

Definition flagged (b : bool) (d : gmap string pyval) : Prop :=
  d !! "meets_hurdle"%string = Some (VBool b).

(** A two-row table: a four-unit property with its price, and one without. *)
Definition two_row_table : list (gmap string pyval) :=
  [list_to_map [("address", VStr "1 Elm St"); ("price", VNum 400000);
                ("units", VNum 4); ("sqft", VNum 4000);
                ("zip_code", VStr "75201")];
   list_to_map [("address", VStr "123 Main St"); ("units", VNum 4);
                ("sqft", VNum 4000); ("zip_code", VStr "75201")]]%string.

(** A calculator with an interest-free loan. *)
Definition interest_free_calculator : ROECalculator :=
  mk_calc 0.35 0.25 0 30 0.

(** The ROE cell of a row is a number.  A missing cell ([NaN] in pandas)
    is not: it compares false with every threshold. *)
Definition roe_is_number (d : gmap string pyval) : bool :=
  match row_get d "roe" VNone with
  | VNum _ => true
  | _ => false
  end.

(** [row['meets_hurdle']] is [True]. *)
Definition is_flagged (d : gmap string pyval) : bool :=
  match d !! "meets_hurdle"%string with
  | Some (VBool true) => true
  | _ => false
  end.

(** A row as the engine writes it: the tier and the flag follow the ROE.  A
    row without a numeric ROE, whose comparisons with the thresholds are all
    false, carries the pass tier and is not flagged. *)
Definition engine_row (d : gmap string pyval) : Prop :=
  match row_get d "roe" VNone with
  | VNum q =>
      d !! "tier"%string = Some (VTier (get_roe_tier q)) /\
      flagged (py_ge q 0.15) d
  | VNone => has_tier pass d /\ flagged false d
  | _ => False
  end.

(** A result table of two scored rows, and the same table with a third row
    whose ROE is missing. *)
Definition scored_table : list (gmap string pyval) :=
  [list_to_map [("address", VStr "1 Elm St"); ("roe", VNum 0.25);
                ("tier", VTier (ROE_TIERS unicorn));
                ("meets_hurdle", VBool true)];
   list_to_map [("address", VStr "2 Oak St"); ("roe", VNum 0.12);
                ("tier", VTier (ROE_TIERS marginal));
                ("meets_hurdle", VBool false)]]%string.

Definition report_table : list (gmap string pyval) :=
  scored_table
  ++ [list_to_map [("address", VStr "3 Ash St"); ("roe", VNone);
                   ("tier", VTier (ROE_TIERS pass));
                   ("meets_hurdle", VBool false)]]%string.

(** * Properties *)

(** ** Comparison operators against the order of [Q] *)

Lemma py_ge_true a b : py_ge a b = true <-> b <= a.
Proof. unfold py_ge. apply Qle_bool_iff. Qed.

Lemma py_ge_false a b : py_ge a b = false <-> a < b.
Proof.
  unfold py_ge. split; intros H.
  - apply Qnot_le_lt. intros Hle. apply Qle_bool_iff in Hle. congruence.
  - destruct (Qle_bool b a) eqn:E; [|reflexivity].
    apply Qle_bool_iff in E. lra.
Qed.

Lemma py_gt_true a b : py_gt a b = true <-> b < a.
Proof.
  unfold py_gt. rewrite negb_true_iff. apply (py_ge_false b a).
Qed.

Lemma py_gt_false a b : py_gt a b = false <-> a <= b.
Proof.
  unfold py_gt. rewrite negb_false_iff. apply Qle_bool_iff.
Qed.

Lemma py_lt_true a b : py_lt a b = true <-> a < b.
Proof. unfold py_lt. rewrite negb_true_iff. apply (py_ge_false a b). Qed.

Lemma py_lt_false a b : py_lt a b = false <-> b <= a.
Proof. unfold py_lt. rewrite negb_false_iff. apply Qle_bool_iff. Qed.

Lemma py_eq_true a b : py_eq a b = true <-> a == b.
Proof. unfold py_eq. apply Qeq_bool_iff. Qed.

Lemma py_eq_false a b : py_eq a b = false <-> ~ a == b.
Proof.
  unfold py_eq. split; intros H.
  - intros E. apply Qeq_bool_iff in E. congruence.
  - destruct (Qeq_bool a b) eqn:E; [|reflexivity].
    apply Qeq_bool_iff in E. contradiction.
Qed.

Ltac py_cases :=
  repeat match goal with
  | H : py_ge _ _ = true |- _ => apply py_ge_true in H
  | H : py_ge _ _ = false |- _ => apply py_ge_false in H
  | H : py_gt _ _ = true |- _ => apply py_gt_true in H
  | H : py_gt _ _ = false |- _ => apply py_gt_false in H
  | H : py_lt _ _ = true |- _ => apply py_lt_true in H
  | H : py_lt _ _ = false |- _ => apply py_lt_false in H
  | H : py_eq _ _ = true |- _ => apply py_eq_true in H
  | H : py_eq _ _ = false |- _ => apply py_eq_false in H
  end.

Lemma ROE_TIERS_inj k1 k2 : ROE_TIERS k1 = ROE_TIERS k2 -> k1 = k2.
Proof. destruct k1, k2; simpl; intros H; try reflexivity; discriminate H. Qed.

Lemma get_roe_tier_cases roe :
  (0.20 <= roe /\ get_roe_tier roe = ROE_TIERS unicorn) \/
  (0.15 <= roe < 0.20 /\ get_roe_tier roe = ROE_TIERS strong) \/
  (0.10 <= roe < 0.15 /\ get_roe_tier roe = ROE_TIERS marginal) \/
  (roe < 0.10 /\ get_roe_tier roe = ROE_TIERS pass).
Proof.
  unfold get_roe_tier.
  destruct (py_ge roe 0.20) eqn:E1; py_cases; [left; tauto|].
  destruct (py_ge roe 0.15) eqn:E2; py_cases; [right; left; tauto|].
  destruct (py_ge roe 0.10) eqn:E3; py_cases; [right; right; left; tauto|].
  right; right; right; tauto.
Qed.

(** C2: tier classification is total and non-overlapping.  Every ROE value
    maps to exactly one of the four tiers, with inclusive lower bounds:
    unicorn exactly when ROE >= 0.20, strong when 0.15 <= ROE < 0.20,
    marginal when 0.10 <= ROE < 0.15 and pass when ROE < 0.10; in particular
    0.20 is unicorn, 0.15 is strong and 0.10 is marginal. *)
Theorem tier_classification_total_disjoint (roe : Q) :
  (exists k, get_roe_tier roe = ROE_TIERS k /\
             forall k', get_roe_tier roe = ROE_TIERS k' -> k' = k) /\
  (get_roe_tier roe = ROE_TIERS unicorn <-> 0.20 <= roe) /\
  (get_roe_tier roe = ROE_TIERS strong <-> 0.15 <= roe < 0.20) /\
  (get_roe_tier roe = ROE_TIERS marginal <-> 0.10 <= roe < 0.15) /\
  (get_roe_tier roe = ROE_TIERS pass <-> roe < 0.10) /\
  get_roe_tier 0.20 = ROE_TIERS unicorn /\
  get_roe_tier 0.15 = ROE_TIERS strong /\
  get_roe_tier 0.10 = ROE_TIERS marginal.
Proof.
  split.
  { destruct (get_roe_tier_cases roe) as [[_ H]|[[_ H]|[[_ H]|[_ H]]]];
      rewrite H; eexists; (split; [reflexivity|]);
      intros k' Hk'; symmetry; apply ROE_TIERS_inj; exact Hk'. }
  assert (Hc := get_roe_tier_cases roe).
  split; [|split; [|split; [|split; [|repeat split]]]]; split; intros H;
    destruct Hc as [[Hr E]|[[Hr E]|[[Hr E]|[Hr E]]]];
    try exact E;
    try (rewrite E in H; apply ROE_TIERS_inj in H; discriminate H);
    try lra.
Qed.

(** ** Rent estimation *)

Lemma py_in_In (s : string) (l : list string) :
  py_in (VStr s) l = true <-> In s l.
Proof.
  simpl. rewrite existsb_exists. split.
  - intros (x & Hx & E). apply String.eqb_eq in E. subst. exact Hx.
  - intros H. exists s. split; [exact H|apply String.eqb_refl].
Qed.

Lemma base_rate_of_cases zip_code :
  base_rate_of zip_code = 1.40 \/ base_rate_of zip_code = 1.20 \/
  base_rate_of zip_code = 1.00.
Proof.
  unfold base_rate_of.
  destruct (py_in zip_code high_rent_zips); [tauto|].
  destruct (py_in zip_code mid_rent_zips); tauto.
Qed.

Lemma py_clamp_bounds lo hi x :
  lo <= hi -> lo <= py_max lo (py_min x hi) <= hi.
Proof.
  intros Hlh. unfold py_max, py_min.
  destruct (py_lt hi x) eqn:E1; py_cases.
  - destruct (py_gt hi lo) eqn:E2; py_cases; lra.
  - destruct (py_gt x lo) eqn:E2; py_cases; lra.
Qed.

Lemma py_clamp_inside lo hi x :
  lo <= x <= hi -> py_max lo (py_min x hi) == x.
Proof.
  intros Hx. unfold py_max, py_min.
  destruct (py_lt hi x) eqn:E1; py_cases; [lra|].
  destruct (py_gt x lo) eqn:E2; py_cases; lra.
Qed.

(** C6: for every ZIP code string and every sqft-per-unit value (extreme,
    zero or negative included) the estimated rent lies in [800, 2500]; when
    sqft-per-unit times the ZIP rate lies in that interval the rent equals
    it, and the rate is 1.40 on the high-rent list, 1.20 on the mid-rent
    list and 1.00 for every other ZIP. *)
Theorem estimate_market_rent_clamped (zip_code : string) (sqft_per_unit : Q) :
  800 <= estimate_market_rent (VStr zip_code) sqft_per_unit <= 2500 /\
  (800 <= sqft_per_unit * base_rate_of (VStr zip_code) <= 2500 ->
   estimate_market_rent (VStr zip_code) sqft_per_unit
     == sqft_per_unit * base_rate_of (VStr zip_code)) /\
  (In zip_code high_rent_zips -> base_rate_of (VStr zip_code) = 1.40) /\
  (In zip_code mid_rent_zips -> base_rate_of (VStr zip_code) = 1.20) /\
  (~ In zip_code high_rent_zips -> ~ In zip_code mid_rent_zips ->
   base_rate_of (VStr zip_code) = 1.00).
Proof.
  unfold estimate_market_rent.
  split; [apply py_clamp_bounds; lra|].
  split; [apply py_clamp_inside|].
  unfold base_rate_of.
  split; [|split].
  - intros H. apply py_in_In in H. rewrite H. reflexivity.
  - intros H.
    destruct (py_in (VStr zip_code) high_rent_zips) eqn:Eh.
    + apply py_in_In in Eh. exfalso.
      simpl in H, Eh.
      repeat match goal with
             | H : _ \/ _ |- _ => destruct H
             | H : False |- _ => destruct H
             end; subst; discriminate.
    + apply py_in_In in H. rewrite H. reflexivity.
  - intros Hh Hm.
    destruct (py_in (VStr zip_code) high_rent_zips) eqn:Eh;
      [apply py_in_In in Eh; contradiction|].
    destruct (py_in (VStr zip_code) mid_rent_zips) eqn:Em;
      [apply py_in_In in Em; contradiction|].
    reflexivity.
Qed.

(** ** Mortgage payment *)

Lemma py_div_ok a b : ~ b == 0 -> py_div a b = Ok (Qred (a / b)).
Proof. intros H. unfold py_div. apply py_eq_false in H. rewrite H. reflexivity. Qed.

Lemma py_div_inv a b q :
  py_div a b = Ok q -> ~ b == 0 /\ q == a / b.
Proof.
  unfold py_div. destruct (py_eq b 0) eqn:E; [discriminate|].
  intros [= <-]. py_cases. split; [exact E|apply Qred_correct].
Qed.

(** C5: for every loan amount and term, when the monthly rate (annual rate
    / 12) is exactly zero the result of [calculate_mortgage_payment] is that
    of the expression [loan_amount / (years * 12)] of the special-case
    branch: the quotient whenever the term is not zero (and the division
    error of that same expression for a term of zero years). *)
Theorem zero_rate_payment (loan_amount annual_rate : Q) (years : Z) :
  annual_rate / 12 == 0 ->
  calculate_mortgage_payment loan_amount annual_rate years
    = py_div loan_amount (inject_Z (years * 12)) /\
  (years <> 0%Z ->
   exists payment,
     calculate_mortgage_payment loan_amount annual_rate years = Ok payment /\
     payment == loan_amount / inject_Z (years * 12)).
Proof.
  intros Hz. unfold calculate_mortgage_payment.
  apply py_eq_true in Hz. rewrite Hz. split; [reflexivity|].
  intros Hy.
  assert (Hn : ~ inject_Z (years * 12) == 0).
  { unfold Qeq. simpl. lia. }
  rewrite (py_div_ok _ _ Hn). eexists. split; [reflexivity|apply Qred_correct].
Qed.

Lemma zero_rate_payment_witness :
  calculate_mortgage_payment 120000 0 10 = py_div 120000 (inject_Z (10 * 12)) /\
  (10%Z <> 0%Z ->
   exists payment,
     calculate_mortgage_payment 120000 0 10 = Ok payment /\
     payment == 120000 / inject_Z (10 * 12)).
Proof. apply (zero_rate_payment 120000 0 10). reflexivity. Defined.

(** ** Amortization *)

Lemma Qpower_succ (x : Q) (k : nat) :
  x ^ Z.of_nat (S k) == x * x ^ Z.of_nat k.
Proof.
  rewrite Nat2Z.inj_succ. unfold Z.succ.
  rewrite Qpower_plus' by lia. rewrite Qpower_1_r. ring.
Qed.

Lemma geom_closed (m : Q) (k : nat) :
  m * geom (1 + m) k == (1 + m) ^ Z.of_nat k - 1.
Proof.
  induction k as [|k IH].
  - simpl. ring.
  - rewrite Qpower_succ. cbn [geom].
    rewrite Qmult_plus_distr_r, IH. ring.
Qed.

Lemma geom_pos (x : Q) (k : nat) : 0 < x -> 0 < geom x (S k).
Proof.
  intros Hx. induction k as [|k IH].
  - cbn. reflexivity.
  - cbn [geom] in *. pose proof (Qpower_0_lt x (Z.of_nat (S k)) Hx). lra.
Qed.

Lemma geom_one (x : Q) (k : nat) : x == 1 -> geom x k == inject_Z (Z.of_nat k).
Proof.
  intros Hx. induction k as [|k IH].
  - reflexivity.
  - cbn [geom]. rewrite IH, Hx, Qpower_1. rewrite Nat2Z.inj_succ.
    unfold Z.succ. rewrite inject_Z_plus. ring.
Qed.

(** The loop invariant: after [k] months the balance is
    [b x^k - P (1 + ... + x^(k-1))] and principal retired plus balance left
    is unchanged. *)
Lemma amortize_balance (k : nat) (P m b t : Q) :
  fst (amortize k P m (b, t)) == b * (1 + m) ^ Z.of_nat k - P * geom (1 + m) k.
Proof.
  revert b t. induction k as [|k IH]; intros b t.
  - cbn [amortize fst geom]. change ((1 + m) ^ Z.of_nat 0) with 1. ring.
  - cbn [amortize month_step]. rewrite IH, Qred_correct, Qpower_succ.
    cbn [geom]. ring.
Qed.

Lemma amortize_conserved (k : nat) (P m b t : Q) :
  snd (amortize k P m (b, t)) + fst (amortize k P m (b, t)) == t + b.
Proof.
  revert b t. induction k as [|k IH]; intros b t.
  - cbn [amortize fst snd]. ring.
  - cbn [amortize month_step]. rewrite IH, !Qred_correct. ring.
Qed.

Lemma paydown_closed (L P r : Q) :
  calculate_principal_paydown_year1 L P r
    == geom (1 + r / 12) 12 * (P - L * (r / 12)).
Proof.
  unfold calculate_principal_paydown_year1.
  pose proof (amortize_conserved 12 P (r / 12) L 0) as Hc.
  pose proof (amortize_balance 12 P (r / 12) L 0) as Hb.
  pose proof (geom_closed (r / 12) 12) as Hg.
  set (T := snd _) in *. set (B := fst _) in *.
  set (G := geom _ _) in *. set (X := _ ^ _) in *.
  assert (HT : T == L - B) by lra.
  rewrite HT, Hb.
  assert (E : L - (L * X - P * G) == P * G - L * (X - 1)) by ring.
  rewrite E, <- Hg. ring.
Qed.

(** What a successful payment computation says about its result. *)
Lemma mortgage_payment_inv (L r : Q) (years : Z) (P : Q) :
  calculate_mortgage_payment L r years = Ok P ->
  let m := r / 12 in
  let n := (years * 12)%Z in
  (m == 0 /\ years <> 0%Z /\ P == L / inject_Z n) \/
  (~ m == 0 /\ ~ (1 + m) ^ n - 1 == 0 /\
   P * ((1 + m) ^ n - 1) == L * m * (1 + m) ^ n).
Proof.
  intros H m n. unfold calculate_mortgage_payment in H. fold m n in H.
  destruct (py_eq m 0) eqn:Em; py_cases.
  - left. apply py_div_inv in H as [Hn HP].
    split; [exact Em|]. split; [|exact HP].
    intros ->. apply Hn. reflexivity.
  - right. unfold py_pow in H.
    destruct (py_eq (1 + m) 0 && (n <? 0)%Z); [discriminate|].
    cbn in H. apply py_div_inv in H as [Hn HP].
    rewrite Qred_correct in Hn, HP.
    split; [exact Em|]. split; [exact Hn|].
    rewrite HP. field. exact Hn.
Qed.

Lemma mortgage_payment_ok (L r : Q) (years : Z) :
  0 <= r -> (0 < years)%Z ->
  exists P, calculate_mortgage_payment L r years = Ok P.
Proof.
  intros Hr Hy. unfold calculate_mortgage_payment.
  set (m := r / 12). set (n := (years * 12)%Z).
  assert (Hm : 0 <= m).
  { unfold m. apply Qle_shift_div_l; [reflexivity|lra]. }
  destruct (py_eq m 0) eqn:Em; py_cases.
  - rewrite py_div_ok; [eauto|]. unfold Qeq, n. simpl. lia.
  - unfold py_pow.
    assert (E0 : py_eq (1 + m) 0 = false) by (apply py_eq_false; lra).
    rewrite E0. cbn.
    assert (1 < (1 + m) ^ n) by (apply Qpower_1_lt; [lra|unfold n; lia]).
    rewrite py_div_ok; [eauto|]. rewrite Qred_correct. lra.
Qed.

Lemma monthly_rate_nonneg (r : Q) : 0 <= r -> 0 <= r / 12.
Proof. intros H. apply Qle_shift_div_l; [reflexivity|lra]. Qed.

Lemma monthly_rate_pos (r : Q) : 0 < r -> 0 < r / 12.
Proof. intros H. apply Qlt_shift_div_l; [reflexivity|lra]. Qed.

(** C3: for a loan amount L > 0, an annual rate r > 0 and a term of n >= 1
    years, the payment is computed and the month-by-month simulation run for
    n * 12 months on that payment ends with a balance of exactly 0. *)
Theorem payment_retires_loan (loan_amount annual_rate : Q) (years : Z) :
  0 < loan_amount -> 0 < annual_rate -> (0 < years)%Z ->
  exists payment,
    calculate_mortgage_payment loan_amount annual_rate years = Ok payment /\
    ending_balance loan_amount payment annual_rate (Z.to_nat (years * 12)) == 0.
Proof.
  intros HL Hr Hy.
  destruct (mortgage_payment_ok loan_amount annual_rate years) as [P HP];
    [lra|exact Hy|].
  exists P. split; [exact HP|].
  pose proof (monthly_rate_pos _ Hr) as Hm.
  apply mortgage_payment_inv in HP. cbv zeta in HP.
  destruct HP as [[Hz _]|(Hnz & Hd & HP)]; [lra|].
  unfold ending_balance. cbv zeta.
  set (m := annual_rate / 12) in *. set (k := Z.to_nat (years * 12)).
  pose proof (amortize_balance k P m loan_amount 0) as Hb.
  pose proof (geom_closed m k) as Hg.
  assert (Hk : Z.of_nat k = (years * 12)%Z) by (unfold k; lia).
  rewrite Hk in Hb, Hg.
  set (B := fst _) in *. set (X := (1 + m) ^ (years * 12)) in *.
  set (G := geom (1 + m) k) in *.
  assert (E : m * B == 0).
  { rewrite Hb.
    assert (E1 : m * (loan_amount * X - P * G)
                 == loan_amount * m * X - P * (m * G)) by ring.
    rewrite E1, Hg, <- HP. ring. }
  apply Qmult_integral in E. destruct E as [E|E]; [lra|exact E].
Qed.

Lemma payment_retires_loan_witness :
  exists payment,
    calculate_mortgage_payment 1200 0.12 1 = Ok payment /\
    ending_balance 1200 payment 0.12 (Z.to_nat (1 * 12)) == 0.
Proof. apply (payment_retires_loan 1200 0.12 1); reflexivity. Defined.

(** C4, as the code has it: on the payment computed for the same loan and a
    non-negative rate, the Year-1 principal paydown is strictly below the
    loan amount whenever the loan amount is strictly positive and the term
    exceeds one year, and strictly positive whenever the payment is. *)
Theorem paydown_year1_bounds (loan_amount annual_rate : Q) (years : Z)
    (payment : Q) :
  0 <= annual_rate ->
  calculate_mortgage_payment loan_amount annual_rate years = Ok payment ->
  ((1 < years)%Z -> 0 < loan_amount ->
   calculate_principal_paydown_year1 loan_amount payment annual_rate
     < loan_amount) /\
  (0 < payment ->
   0 < calculate_principal_paydown_year1 loan_amount payment annual_rate).
Proof.
  intros Hr HP.
  pose proof (monthly_rate_nonneg _ Hr) as Hm.
  apply mortgage_payment_inv in HP. cbv zeta in HP.
  pose proof (paydown_closed loan_amount payment annual_rate) as HT.
  set (T := calculate_principal_paydown_year1 _ _ _) in *.
  set (m := annual_rate / 12) in *.
  pose proof (geom_pos (1 + m) 11 ltac:(lra)) as HG.
  pose proof (geom_closed m 12) as Hg.
  set (G := geom (1 + m) 12) in *.
  set (n := (years * 12)%Z) in *.
  destruct HP as [(Hz & Hy & HP)|(Hnz & Hd & HP)].
  - (* zero rate: twelve equal instalments *)
    assert (HG12 : G == 12).
    { unfold G. rewrite geom_one; [reflexivity|rewrite Hz; reflexivity]. }
    assert (ET : T == 12 * payment).
    { rewrite HT, HG12, Hz. ring. }
    split.
    + intros H1 HL. rewrite ET, HP.
      assert (Hn : 12 < inject_Z n).
      { change 12 with (inject_Z 12). rewrite <- Zlt_Qlt. unfold n. lia. }
      assert (E : 12 * (loan_amount / inject_Z n)
                  == loan_amount * 12 / inject_Z n) by (field; lra).
      rewrite E. apply Qlt_shift_div_r; [lra|].
      apply Qmult_lt_l; assumption.
    + intros Hp. rewrite ET. lra.
  - (* positive rate *)
    assert (Hmpos : 0 < m) by lra.
    set (X := (1 + m) ^ n) in *.
    assert (HX : 0 < X) by (apply Qpower_0_lt; lra).
    (* the first principal portion, scaled by the growth factor *)
    assert (Hfirst : (payment - loan_amount * m) * X == payment).
    { assert (E : (payment - loan_amount * m) * X
                  == payment * X - loan_amount * m * X) by ring.
      rewrite E, <- HP. ring. }
    split.
    + intros H1 HL.
      assert (H12 : (1 + m) ^ 12 < X).
      { apply Qpower_lt_compat_l; [unfold n; lia|lra]. }
      assert (HX1 : 0 < X - 1).
      { assert (1 < X) by (apply Qpower_1_lt; [lra|unfold n; lia]). lra. }
      (* T (X - 1) = L ((1+m)^12 - 1) *)
      assert (ET : T * (X - 1) == loan_amount * ((1 + m) ^ 12 - 1)).
      { rewrite HT.
        assert (E : G * (payment - loan_amount * m) * (X - 1)
                    == G * (payment * (X - 1) - loan_amount * m * X
                            + loan_amount * m)) by ring.
        rewrite E, HP.
        change (Z.of_nat 12) with 12%Z in Hg. rewrite <- Hg. ring. }
      apply (Qmult_lt_r _ _ (X - 1)); [exact HX1|]. rewrite ET.
      apply Qmult_lt_l; [exact HL|]. lra.
    + intros Hp. rewrite HT.
      apply Qmult_lt_0_compat; [exact HG|].
      apply (Qmult_lt_r _ _ X); [exact HX|]. rewrite Hfirst. lra.
Qed.

Lemma paydown_year1_bounds_witness :
  exists payment,
    calculate_mortgage_payment 1200 0.12 2 = Ok payment /\
    ((1 < 2)%Z -> 0 < 1200 ->
     calculate_principal_paydown_year1 1200 payment 0.12 < 1200) /\
    (0 < payment ->
     0 < calculate_principal_paydown_year1 1200 payment 0.12).
Proof.
  eexists. split; [vm_compute; reflexivity|].
  apply (paydown_year1_bounds 1200 0.12 2);
    [discriminate|vm_compute; reflexivity].
Defined.

(** C4 as stated fails for a loan amount of zero (an all-cash purchase or a
    zero price): the payment and the paydown are both 0, and 0 is not
    strictly below the loan amount 0, although the term is 30 years. *)
Lemma paydown_year1_zero_loan_counterexample :
  calculate_mortgage_payment 0 0.07 30 = Ok 0 /\ (1 < 30)%Z /\
  ~ calculate_principal_paydown_year1 0 0 0.07 < 0.
Proof.
  split; [vm_compute; reflexivity|]. split; [reflexivity|].
  vm_compute. discriminate.
Qed.

(** ** The per-property calculation *)

Ltac bind_inv H :=
  unfold mbind, result_bind in H;
  repeat match type of H with
         | match ?x with _ => _ end = Ok _ =>
             let E := fresh "E" in destruct x eqn:E; try discriminate H
         end.

(** The flag and the tier of a result are both read off its ROE. *)
Lemma calculate_roe_metrics self purchase_price units sqft zip_code rent r :
  calculate_roe self purchase_price units sqft zip_code rent = Ok r ->
  r_meets_hurdle r = py_ge (r_roe r) 0.15 /\ r_tier r = get_roe_tier (r_roe r).
Proof.
  intros H. unfold calculate_roe in H. bind_inv H.
  injection H as <-. split; reflexivity.
Qed.

Lemma sqft_per_unit_of_num (sqft : option Q) (units : Q) :
  exists q, sqft_per_unit_of (opt_num sqft) (VNum units) = Ok q.
Proof.
  unfold sqft_per_unit_of. destruct sqft as [s|]; cbn [opt_num py_truthy].
  - destruct (negb (py_eq s 0)); cbn [andb]; [|eauto].
    destruct (py_eq units 0) eqn:E; cbn [negb]; [eauto|].
    cbn. unfold py_div. rewrite E. eauto.
  - cbn. eauto.
Qed.

(** C7: with numeric inputs, a non-negative rate and a term of at least one
    year, [calculate_roe] returns a record (no exception); ROE and CoC are
    exactly 0 when the down payment is 0 and the cap rate is exactly 0 when
    the purchase price is 0. *)
Theorem degenerate_ratios_are_zero (self : ROECalculator)
    (purchase_price units : Q) (sqft : option Q) (zip_code : pyval)
    (monthly_rent_per_unit : option Q) :
  0 <= rate self -> (0 < term self)%Z ->
  exists r,
    calculate_roe self (VNum purchase_price) (VNum units) (opt_num sqft)
      zip_code monthly_rent_per_unit = Ok r /\
    r_down_payment r = purchase_price * down_pct self /\
    (r_down_payment r == 0 -> r_roe r = 0 /\ r_coc r = 0) /\
    (purchase_price == 0 -> r_cap_rate r = 0).
Proof.
  intros Hr Ht. unfold calculate_roe.
  assert (Hrent : exists q,
    (match monthly_rent_per_unit with
     | Some rent => Ok rent
     | None => sqft_per_unit ← sqft_per_unit_of (opt_num sqft) (VNum units);
               Ok (estimate_market_rent zip_code sqft_per_unit)
     end) = Ok q).
  { destruct monthly_rent_per_unit as [q|]; [eauto|].
    destruct (sqft_per_unit_of_num sqft units) as [q ->]. cbn. eauto. }
  destruct Hrent as [rent ->].
  destruct (mortgage_payment_ok
              (purchase_price - purchase_price * down_pct self)
              (rate self) (term self) Hr Ht) as [P HP].
  cbn. rewrite HP. cbn. eexists. split; [reflexivity|]. cbn.
  split; [reflexivity|]. split.
  - intros Hd. apply Qeq_sym in Hd.
    assert (E : py_gt (purchase_price * down_pct self) 0 = false).
    { apply py_gt_false. rewrite <- Hd. apply Qle_refl. }
    rewrite E. split; reflexivity.
  - intros Hp.
    assert (E : py_gt purchase_price 0 = false).
    { apply py_gt_false. rewrite Hp. apply Qle_refl. }
    rewrite E. reflexivity.
Qed.

Lemma degenerate_ratios_are_zero_witness :
  exists r,
    calculate_roe default_calculator (VNum 0) (VNum 4) (opt_num (Some 4000))
      (VStr "75201") None = Ok r /\
    r_down_payment r = 0 * down_pct default_calculator /\
    (r_down_payment r == 0 -> r_roe r = 0 /\ r_coc r = 0) /\
    (0 == 0 -> r_cap_rate r = 0).
Proof.
  apply (degenerate_ratios_are_zero default_calculator 0 4 (Some 4000));
    [discriminate|reflexivity].
Defined.

(** C9: in every record produced by [calculate_roe], the hurdle flag is true
    exactly when ROE >= 0.15, which is exactly when the tier is unicorn or
    strong. *)
Theorem hurdle_flag_agrees_with_tier (self : ROECalculator)
    (purchase_price units sqft zip_code : pyval)
    (monthly_rent_per_unit : option Q) (r : roe_result) :
  calculate_roe self purchase_price units sqft zip_code monthly_rent_per_unit
    = Ok r ->
  (r_meets_hurdle r = true <-> 0.15 <= r_roe r) /\
  (0.15 <= r_roe r <->
   r_tier r = ROE_TIERS unicorn \/ r_tier r = ROE_TIERS strong).
Proof.
  intros H. apply calculate_roe_metrics in H as [Hf Ht].
  rewrite Hf, Ht. split; [apply py_ge_true|].
  destruct (get_roe_tier_cases (r_roe r)) as [[Hr E]|[[Hr E]|[[Hr E]|[Hr E]]]];
    rewrite E; split; intros H;
    try (left; reflexivity); try (right; reflexivity); try lra;
    destruct H as [H|H]; apply ROE_TIERS_inj in H; discriminate H.
Qed.

Lemma hurdle_flag_agrees_with_tier_witness :
  exists r,
    calculate_roe (mk_calc 0.35 0.25 0.12 1 0) (VNum 100000) (VNum 4)
      (VNum 4000) (VStr "75201") None = Ok r /\
    (r_meets_hurdle r = true <-> 0.15 <= r_roe r) /\
    (0.15 <= r_roe r <->
     r_tier r = ROE_TIERS unicorn \/ r_tier r = ROE_TIERS strong).
Proof.
  eexists. split; [vm_compute; reflexivity|].
  apply (hurdle_flag_agrees_with_tier (mk_calc 0.35 0.25 0.12 1 0)
           (VNum 100000) (VNum 4) (VNum 4000) (VStr "75201") None).
  vm_compute. reflexivity.
Defined.

(** ** The batch *)

Lemma to_dict_lookup_metric (rc : roe_result) (k : string) :
  In k metric_columns -> is_Some (to_dict rc !! k).
Proof.
  intros H. unfold metric_columns in H. cbn [In] in H.
  repeat (destruct H as [<-|H]; [vm_compute; eauto|]). destruct H.
Qed.

Lemma to_dict_lookup_roe (rc : roe_result) :
  to_dict rc !! "roe"%string = Some (VNum (r_roe rc)).
Proof. vm_compute. reflexivity. Qed.

Lemma to_dict_lookup_rent (rc : roe_result) :
  to_dict rc !! "monthly_rent_per_unit"%string
    = Some (VNum (r_monthly_rent_per_unit rc)).
Proof. vm_compute. reflexivity. Qed.

Section BatchLoop.

Variable self : ROECalculator.

Lemma omap_row_result_cons row rows :
  omap (row_result self) (row :: rows)
    = match roe_calc_of_row self row with
      | Ok rc => (to_dict rc ∪ row) :: omap (row_result self) rows
      | Raise _ => omap (row_result self) rows
      end.
Proof.
  change (omap (row_result self) (row :: rows))
    with (match row_result self row with
          | Some d => d :: omap (row_result self) rows
          | None => omap (row_result self) rows
          end).
  unfold row_result at 1. destruct (roe_calc_of_row self row); reflexivity.
Qed.

Lemma process_rows_results rows acc log :
  (foldl (process_row self) (acc, log) rows).1
    = acc ++ omap (row_result self) rows.
Proof.
  revert acc log. induction rows as [|row rows IH]; intros acc log.
  - cbn. by rewrite app_nil_r.
  - cbn [foldl]. rewrite omap_row_result_cons. unfold process_row at 2.
    destruct (roe_calc_of_row self row) as [rc|e].
    + rewrite IH, <- app_assoc. reflexivity.
    + apply IH.
Qed.

Lemma row_result_length df :
  (length (omap (row_result self) df) + failing_rows self df = length df)%nat.
Proof.
  unfold failing_rows. induction df as [|row df IH]; [reflexivity|].
  rewrite omap_row_result_cons. cbn [List.filter]. unfold row_fails at 1.
  destruct (roe_calc_of_row self row); cbn [length]; lia.
Qed.

Lemma has_column_roe df :
  has_column (omap (row_result self) df) "roe"
    = negb (forallb (row_fails self) df).
Proof.
  induction df as [|row df IH]; [reflexivity|].
  rewrite omap_row_result_cons. cbn [forallb]. unfold row_fails at 1.
  destruct (roe_calc_of_row self row) as [rc|e]; [|exact IH].
  cbn [has_column existsb andb negb].
  rewrite lookup_union_l' by (rewrite to_dict_lookup_roe; eauto).
  rewrite to_dict_lookup_roe. reflexivity.
Qed.

(** The result of the batch call, in terms of the rows that succeed. *)
Lemma analyze_portfolio_result df :
  (analyze_portfolio self df).2
    = if forallb (row_fails self) df then Raise (KeyError "roe")
      else Ok (omap (row_result self) df).
Proof.
  unfold analyze_portfolio.
  pose proof (process_rows_results df [] [InfoAnalyzing (length df)])
    as Hres.
  destruct (foldl _ _ df) as [results log]. cbn [fst app] in Hres. subst.
  unfold df_getitem. rewrite has_column_roe.
  destruct (forallb (row_fails self) df); reflexivity.
Qed.

(** When at least one row succeeds the batch returns the N - K output rows. *)
Lemma analyze_portfolio_skips_failing_rows df :
  forallb (row_fails self) df = false ->
  exists out, (analyze_portfolio self df).2 = Ok out /\
              length out = (length df - failing_rows self df)%nat.
Proof.
  intros H. rewrite analyze_portfolio_result, H. eexists. split; [reflexivity|].
  pose proof (row_result_length df). lia.
Qed.

(** When every row fails (in particular on the empty table) the summary
    statistics raise [KeyError]. *)
Lemma analyze_portfolio_raises_when_no_row_succeeds df :
  forallb (row_fails self) df = true ->
  (analyze_portfolio self df).2 = Raise (KeyError "roe").
Proof. intros H. rewrite analyze_portfolio_result, H. reflexivity. Qed.

End BatchLoop.

(** C1 fails on the code when no row succeeds: on a one-row table without a
    [price] column (N = 1, K = 1) the row is skipped with a warning, and the
    summary statistics then raise [KeyError: 'roe'] out of the batch call;
    the same happens on the empty table (N = 0, K = 0). *)
Theorem analyze_portfolio_raises_on_missing_price :
  length table_without_price = 1%nat /\
  failing_rows default_calculator table_without_price = 1%nat /\
  analyze_portfolio default_calculator table_without_price
    = ([InfoAnalyzing 1;
        WarningFailed (VStr "123 Main St") (KeyError "price")],
       Raise (KeyError "roe")) /\
  analyze_portfolio default_calculator []
    = ([InfoAnalyzing 0], Raise (KeyError "roe")).
Proof. vm_compute. repeat split. Qed.

Lemma getitem_agree c r1 r2 k :
  rows_agree_except c r1 r2 -> k <> c -> getitem r1 k = getitem r2 k.
Proof. intros H Hk. unfold getitem. rewrite (H k Hk). reflexivity. Qed.

Lemma roe_calc_of_row_agree self c r1 r2 :
  ~ In c input_columns -> rows_agree_except c r1 r2 ->
  roe_calc_of_row self r1 = roe_calc_of_row self r2.
Proof.
  intros Hc H. unfold roe_calc_of_row, row_get.
  assert (Hk : forall k, In k input_columns -> k <> c)
    by (intros k Hin ->; contradiction).
  rewrite (getitem_agree c r1 r2 "price"), (getitem_agree c r1 r2 "units"),
    (getitem_agree c r1 r2 "zip_code"), (H "sqft"%string);
    try assumption; try reflexivity; apply Hk; cbn; tauto.
Qed.

Lemma calculate_roe_estimates_rent self purchase_price units sqft zip_code rc :
  calculate_roe self purchase_price units sqft zip_code None = Ok rc ->
  800 <= r_monthly_rent_per_unit rc <= 2500.
Proof.
  intros H. unfold calculate_roe, mbind, result_bind in H.
  destruct (sqft_per_unit_of sqft units) as [spu|e]; [|discriminate H].
  bind_inv H. injection H as <-. cbn [r_monthly_rent_per_unit].
  unfold estimate_market_rent. apply py_clamp_bounds. lra.
Qed.

Lemma row_result_rent self row d :
  row_result self row = Some d -> rent_is_estimated d.
Proof.
  unfold row_result. destruct (roe_calc_of_row self row) as [rc|e] eqn:E;
    [|discriminate].
  intros [= <-]. exists (r_monthly_rent_per_unit rc). split.
  - rewrite lookup_union_l' by (rewrite to_dict_lookup_rent; eauto).
    apply to_dict_lookup_rent.
  - unfold roe_calc_of_row in E. bind_inv E.
    eapply calculate_roe_estimates_rent. exact E.
Qed.

Lemma calculate_roe_rent_estimate self purchase_price units sqft zip_code rc :
  calculate_roe self purchase_price units sqft zip_code None = Ok rc ->
  exists sqft_per_unit,
    sqft_per_unit_of sqft units = Ok sqft_per_unit /\
    r_monthly_rent_per_unit rc = estimate_market_rent zip_code sqft_per_unit.
Proof.
  intros H. unfold calculate_roe, mbind, result_bind in H.
  destruct (sqft_per_unit_of sqft units) as [spu|e]; [|discriminate H].
  bind_inv H. injection H as <-. exists spu. split; reflexivity.
Qed.

Lemma getitem_ok row k v : getitem row k = Ok v -> row !! k = Some v.
Proof.
  unfold getitem. destruct (row !! k); [|discriminate]. intros [= <-].
  reflexivity.
Qed.

Lemma row_result_rent_estimate self row d :
  row_result self row = Some d -> rent_estimated_from row d.
Proof.
  unfold row_result. destruct (roe_calc_of_row self row) as [rc|e] eqn:E;
    [|discriminate].
  intros [= <-]. unfold roe_calc_of_row, mbind, result_bind in E.
  destruct (getitem row "price") as [price|] eqn:Hprice; [|discriminate E].
  destruct (getitem row "units") as [units|] eqn:Hunits; [|discriminate E].
  destruct (getitem row "zip_code") as [zip_code|] eqn:Hzip;
    [|discriminate E].
  apply calculate_roe_rent_estimate in E as (spu & Hspu & Hrent).
  exists zip_code, units, spu.
  split; [apply getitem_ok; exact Hzip|].
  split; [apply getitem_ok; exact Hunits|]. split; [exact Hspu|].
  rewrite lookup_union_l' by (rewrite to_dict_lookup_rent; eauto).
  rewrite to_dict_lookup_rent, Hrent. reflexivity.
Qed.

Lemma omap_rents_estimated self table :
  rents_estimated_from self table (omap (row_result self) table).
Proof.
  apply Forall_forall. intros d Hd.
  apply list_elem_of_omap in Hd as (row & Hin & Hrow).
  exists row. split; [apply list_elem_of_In; exact Hin|].
  split; [exact Hrow|exact (row_result_rent_estimate self row d Hrow)].
Qed.

Lemma row_results_agree self c t1 t2 :
  ~ In c input_columns -> Forall2 (rows_agree_except c) t1 t2 ->
  forallb (row_fails self) t1 = forallb (row_fails self) t2 /\
  Forall2 same_metrics (omap (row_result self) t1)
    (omap (row_result self) t2).
Proof.
  intros Hc H. induction H as [|r1 r2 t1 t2 Hr Ht [IHf IHm]].
  - split; [reflexivity|constructor].
  - rewrite !omap_row_result_cons. cbn [forallb]. unfold row_fails at 1 3.
    rewrite <- (roe_calc_of_row_agree self c r1 r2 Hc Hr).
    destruct (roe_calc_of_row self r1) as [rc|e]; cbn [andb].
    + split; [reflexivity|]. constructor; [|exact IHm].
      intros k Hk. destruct (to_dict_lookup_metric rc k Hk) as [v Hv].
      rewrite !lookup_union_l' by eauto. reflexivity.
    + split; assumption.
Qed.

(** C10: the batch never passes a known rent.  Two tables that differ only
    in one column other than price, units, sqft and zip_code (a monthly rent
    column, say) either both raise the same exception or return tables whose
    rows agree pairwise on every computed column; and the rent of every
    output row is computed by estimation: it is [estimate_market_rent] of
    the ZIP code and the square footage per unit of its input row (hence
    within the clamp bounds), also when the row has a rent column. *)
Theorem batch_ignores_rent_column (self : ROECalculator) (c : string)
    (t1 t2 : list (gmap string pyval)) :
  ~ In c input_columns ->
  Forall2 (rows_agree_except c) t1 t2 ->
  match (analyze_portfolio self t1).2, (analyze_portfolio self t2).2 with
  | Ok d1, Ok d2 =>
      Forall2 same_metrics d1 d2 /\
      Forall rent_is_estimated d1 /\ Forall rent_is_estimated d2 /\
      rents_estimated_from self t1 d1 /\ rents_estimated_from self t2 d2
  | Raise e1, Raise e2 => e1 = e2
  | _, _ => False
  end.
Proof.
  intros Hc H. rewrite !analyze_portfolio_result.
  destruct (row_results_agree self c t1 t2 Hc H) as [Hf Hm].
  rewrite <- Hf. destruct (forallb (row_fails self) t1); [reflexivity|].
  split; [exact Hm|].
  assert (Hrange : forall t, Forall rent_is_estimated
                               (omap (row_result self) t)).
  { intros t. apply Forall_forall. intros d Hd.
    apply list_elem_of_omap in Hd as (row & _ & Hrow).
    exact (row_result_rent self row d Hrow). }
  split; [apply Hrange|]. split; [apply Hrange|].
  split; apply omap_rents_estimated.
Qed.

Lemma batch_ignores_rent_column_witness :
  match (analyze_portfolio default_calculator
           [<["monthly_rent_per_unit"%string := VNum 1500]>
              (<["price"%string := VNum 400000]> (table_without_price !!! 0%nat))]).2,
        (analyze_portfolio default_calculator
           [<["monthly_rent_per_unit"%string := VNum 9000]>
              (<["price"%string := VNum 400000]> (table_without_price !!! 0%nat))]).2
  with
  | Ok d1, Ok d2 =>
      Forall2 same_metrics d1 d2 /\
      Forall rent_is_estimated d1 /\ Forall rent_is_estimated d2 /\
      rents_estimated_from default_calculator
        [<["monthly_rent_per_unit"%string := VNum 1500]>
           (<["price"%string := VNum 400000]> (table_without_price !!! 0%nat))]
        d1 /\
      rents_estimated_from default_calculator
        [<["monthly_rent_per_unit"%string := VNum 9000]>
           (<["price"%string := VNum 400000]> (table_without_price !!! 0%nat))]
        d2
  | Raise e1, Raise e2 => e1 = e2
  | _, _ => False
  end.
Proof.
  apply (batch_ignores_rent_column default_calculator
           "monthly_rent_per_unit").
  - cbn. intros H. repeat (destruct H as [H|H]; [discriminate H|]). exact H.
  - constructor; [|constructor]. intros k Hk.
    rewrite lookup_insert_ne by congruence. symmetry.
    rewrite lookup_insert_ne by congruence. reflexivity.
Defined.

(** ** The formatted summary *)

Lemma digit_char_is_digit (d : N) : (d < 10)%N -> is_digit (digit_char d) = true.
Proof.
  intros H.
  assert (E : In d [0; 1; 2; 3; 4; 5; 6; 7; 8; 9]%N).
  { cbn. lia. }
  cbn in E. repeat (destruct E as [<-|E]; [reflexivity|]). destruct E.
Qed.

Lemma low_digits_length (k : nat) (n : N) : length (low_digits k n) = k.
Proof.
  revert n. induction k as [|k IH]; intros n; [reflexivity|].
  cbn [low_digits]. rewrite length_app, IH. cbn. lia.
Qed.

Lemma low_digits_digits (k : nat) (n : N) :
  forallb is_digit (low_digits k n) = true.
Proof.
  revert n. induction k as [|k IH]; intros n; [reflexivity|].
  cbn [low_digits]. rewrite forallb_app, IH. cbn [forallb andb].
  rewrite digit_char_is_digit; [reflexivity|].
  apply N.mod_lt. discriminate.
Qed.

Lemma string_of_uint_digits (d : Decimal.uint) :
  forallb is_digit (list_ascii_of_string (NilEmpty.string_of_uint d)) = true.
Proof. induction d; cbn; auto. Qed.

Lemma digits_of_digits (n : N) : forallb is_digit (digits_of n) = true.
Proof.
  unfold digits_of, NilZero.string_of_uint.
  destruct (N.to_uint n); try apply string_of_uint_digits. reflexivity.
Qed.

Lemma digits_of_nonempty (n : N) : digits_of n <> [].
Proof.
  unfold digits_of, NilZero.string_of_uint.
  destruct (N.to_uint n); cbn; discriminate.
Qed.

Lemma is_digit_not_point c : is_digit c = true -> Ascii.eqb c "." = false.
Proof.
  intros H. destruct (Ascii.eqb_spec c "."%char) as [->|]; [|reflexivity].
  discriminate H.
Qed.

Lemma after_point_digits l1 l2 :
  forallb is_digit l1 = true -> after_point (l1 ++ l2) = after_point l2.
Proof.
  induction l1 as [|c l1 IH]; [reflexivity|]. cbn [forallb app after_point].
  intros H. apply andb_true_iff in H as [Hc Hl].
  rewrite (is_digit_not_point c Hc). exact (IH Hl).
Qed.

Lemma digit_run_digits l1 l2 :
  forallb is_digit l1 = true ->
  digit_run (l1 ++ l2) = (length l1 + digit_run l2)%nat.
Proof.
  induction l1 as [|c l1 IH]; [reflexivity|]. cbn [forallb app digit_run].
  intros H. apply andb_true_iff in H as [-> Hl]. rewrite (IH Hl). reflexivity.
Qed.

(** After the sign and the integer part, a rendering has the point followed
    by exactly [prec] digits, or no point when [prec = 0]. *)
Lemma format_fixed_fraction prec q rest :
  after_point rest = None -> digit_run rest = O ->
  match after_point (format_fixed false prec q ++ rest) with
  | Some t => digit_run t
  | None => O
  end = prec.
Proof.
  intros Hrest Hrun. unfold format_fixed.
  set (ip := digits_of _). set (sc := Z.to_N _).
  assert (Hsign : forall l,
    after_point ((if py_lt q 0 then ["-"%char] else []) ++ l) = after_point l).
  { intros l. destruct (py_lt q 0); reflexivity. }
  rewrite <- !app_assoc, Hsign.
  rewrite after_point_digits by apply digits_of_digits.
  destruct prec as [|p].
  - cbn [app]. rewrite Hrest. reflexivity.
  - cbn [app after_point]. rewrite Ascii.eqb_refl.
    rewrite digit_run_digits by apply low_digits_digits.
    rewrite low_digits_length, Hrun. lia.
Qed.

Lemma fraction_digits_percent (prec : nat) (q : Q) :
  fraction_digits (py_format (FPercent prec) q) = prec.
Proof.
  unfold fraction_digits, py_format.
  rewrite list_ascii_of_string_of_list_ascii.
  apply format_fixed_fraction; reflexivity.
Qed.

Lemma forallb_rev {A} (f : A -> bool) (l : list A) :
  forallb f (rev l) = forallb f l.
Proof.
  induction l as [|a l IH]; [reflexivity|].
  cbn [rev forallb]. rewrite forallb_app, IH. cbn. destruct (f a), (forallb f l);
    reflexivity.
Qed.

Lemma group3_rev_cons4 (a b c d : ascii) (rest : list ascii) :
  group3_rev (a :: b :: c :: d :: rest)
    = a :: b :: c :: ","%char :: group3_rev (d :: rest).
Proof. reflexivity. Qed.

Lemma mod4_shift (i k : nat) :
  (i mod 4 = 0 -> k < 4 -> (k + i) mod 4 = k)%nat.
Proof.
  intros Hi Hk. rewrite (Nat.div_mod_eq i 4), Hi, Nat.add_0_r.
  rewrite (Nat.mul_comm 4), Nat.Div0.mod_add. apply Nat.mod_small. exact Hk.
Qed.

(** Commas sit exactly before every group of three digits. *)
Lemma group3_rev_grouped (n : nat) :
  forall (l : list ascii) (i : nat),
    (length l <= n)%nat -> forallb is_digit l = true -> (i mod 4 = 0)%nat ->
    grouped_rev i (group3_rev l) = true.
Proof.
  induction n as [|n IH]; intros l i Hn Hd Hi.
  - destruct l; [reflexivity|cbn in Hn; lia].
  - assert (H1 : (S i mod 4 = 1)%nat) by exact (mod4_shift i 1 Hi ltac:(lia)).
    assert (H2 : (S (S i) mod 4 = 2)%nat)
      by exact (mod4_shift i 2 Hi ltac:(lia)).
    assert (H3 : (S (S (S i)) mod 4 = 3)%nat)
      by exact (mod4_shift i 3 Hi ltac:(lia)).
    assert (H4 : (S (S (S (S i))) mod 4 = 0)%nat).
    { change (S (S (S (S i)))) with (4 + i)%nat.
      rewrite <- (Nat.mul_1_l 4) at 1. rewrite Nat.add_comm, Nat.Div0.mod_add.
      exact Hi. }
    destruct l as [|a [|b [|c [|d rest]]]]; cbn [forallb] in Hd;
      repeat match goal with
             | H : _ && _ = true |- _ => apply andb_true_iff in H as [? ?]
             end;
      [reflexivity|cbn [group3_rev]..|rewrite group3_rev_cons4];
      cbn [grouped_rev];
      rewrite ?Hi, ?H1, ?H2, ?H3; cbn [Nat.eqb];
      repeat match goal with
             | H : is_digit _ = true |- _ => rewrite H; clear H
             end; cbn [andb]; try reflexivity.
    rewrite Ascii.eqb_refl. cbn [andb].
    apply IH; [cbn in Hn |- *; lia| |exact H4].
    cbn [forallb]. apply andb_true_iff. split; assumption.
Qed.

Lemma group3_rev_length (n : nat) :
  forall l : list ascii,
    (length l <= n)%nat -> l <> [] -> (length (group3_rev l) mod 4 <> 0)%nat.
Proof.
  induction n as [|n IH]; intros l Hn Hne.
  - destruct l; [contradiction|cbn in Hn; lia].
  - destruct l as [|a [|b [|c [|d rest]]]];
      [contradiction|(cbn; discriminate)..|].
    rewrite group3_rev_cons4. cbn [length].
    specialize (IH (d :: rest) ltac:(cbn in Hn |- *; lia) ltac:(discriminate)).
    change (S (S (S (S (length (group3_rev (d :: rest)))))))
      with (4 + length (group3_rev (d :: rest)))%nat.
    rewrite <- (Nat.mul_1_l 4) at 1. rewrite Nat.add_comm, Nat.Div0.mod_add.
    exact IH.
Qed.

Lemma grouped_rev_no_minus (l : list ascii) (i : nat) :
  grouped_rev i l = true ->
  forallb (fun c => negb (Ascii.eqb c "-")) l = true.
Proof.
  revert i. induction l as [|c l IH]; intros i H; [reflexivity|].
  cbn [grouped_rev] in H. apply andb_true_iff in H as [Hc Hl].
  cbn [forallb]. rewrite (IH _ Hl), andb_true_r.
  destruct (Ascii.eqb_spec c "-"%char) as [->|]; [|reflexivity].
  destruct (i mod 4 =? 3)%nat; discriminate Hc.
Qed.

Lemma unsigned_sign (neg : bool) (body : list ascii) :
  forallb (fun c => negb (Ascii.eqb c "-")) body = true ->
  unsigned ((if neg then ["-"%char] else []) ++ body) = body.
Proof.
  intros H. destruct neg; [reflexivity|].
  destruct body as [|c body]; [reflexivity|].
  cbn [app unsigned]. cbn [forallb] in H. apply andb_true_iff in H as [Hc _].
  apply negb_true_iff in Hc. rewrite Hc. reflexivity.
Qed.

Lemma thousands_grouped_money (q : Q) :
  thousands_grouped (py_format (FFixed true 0) q) = true.
Proof.
  unfold thousands_grouped, py_format.
  rewrite list_ascii_of_string_of_list_ascii. unfold format_fixed.
  set (ip := digits_of _). rewrite app_nil_r.
  assert (Hg : grouped_rev 0 (group3_rev (rev ip)) = true).
  { apply (group3_rev_grouped (length (rev ip))); [lia| |reflexivity].
    rewrite forallb_rev. apply digits_of_digits. }
  assert (Hl : (length (group3_rev (rev ip)) mod 4 <> 0)%nat).
  { apply (group3_rev_length (length (rev ip))); [lia|].
    intros E. apply (f_equal (@rev ascii)) in E.
    rewrite rev_involutive in E. exact (digits_of_nonempty _ E). }
  rewrite unsigned_sign.
  - unfold group3. rewrite rev_involutive, Hg, length_rev, andb_true_r.
    apply negb_true_iff, Nat.eqb_neq. exact Hl.
  - unfold group3. rewrite forallb_rev.
    exact (grouped_rev_no_minus _ _ Hg).
Qed.

Lemma fraction_digits_money (q : Q) :
  fraction_digits (py_format (FFixed true 0) q) = O.
Proof.
  unfold fraction_digits, py_format.
  rewrite list_ascii_of_string_of_list_ascii. unfold format_fixed.
  set (ip := digits_of _). rewrite app_nil_r.
  assert (Hn : after_point (group3 ip) = None).
  { unfold group3.
    assert (Hg : grouped_rev 0 (group3_rev (rev ip)) = true).
    { apply (group3_rev_grouped (length (rev ip))); [lia| |reflexivity].
      rewrite forallb_rev. apply digits_of_digits. }
    assert (Hp : forall l i, grouped_rev i l = true ->
                 forallb (fun c => negb (Ascii.eqb c ".")) l = true).
    { induction l as [|c l IH]; intros i H; [reflexivity|].
      cbn [grouped_rev] in H. apply andb_true_iff in H as [Hc Hl].
      cbn [forallb]. rewrite (IH _ Hl), andb_true_r.
      destruct (Ascii.eqb_spec c "."%char) as [->|]; [|reflexivity].
      destruct (i mod 4 =? 3)%nat; discriminate Hc. }
    specialize (Hp _ _ Hg). rewrite <- forallb_rev in Hp.
    induction (rev (group3_rev (rev ip))) as [|c l IH]; [reflexivity|].
    cbn [forallb] in Hp. apply andb_true_iff in Hp as [Hc Hl].
    cbn [after_point]. apply negb_true_iff in Hc. rewrite Hc. exact (IH Hl). }
  destruct (py_lt q 0); cbn [app after_point Ascii.eqb]; [cbn|]; rewrite Hn;
    reflexivity.
Qed.

(** The values that the summary reads from the dict of a result record. *)
Lemma getitem_to_dict (r : roe_result) :
  getitem (to_dict r) "tier" = Ok (VTier (r_tier r)) /\
  getitem (to_dict r) "roe" = Ok (VNum (r_roe r)) /\
  getitem (to_dict r) "purchase_price" = Ok (VNum (r_purchase_price r)) /\
  getitem (to_dict r) "down_payment" = Ok (VNum (r_down_payment r)) /\
  getitem (to_dict r) "loan_amount" = Ok (VNum (r_loan_amount r)) /\
  getitem (to_dict r) "units" = Ok (VNum (r_units r)) /\
  getitem (to_dict r) "monthly_rent_per_unit"
    = Ok (VNum (r_monthly_rent_per_unit r)) /\
  getitem (to_dict r) "annual_gross_rent" = Ok (VNum (r_annual_gross_rent r)) /\
  getitem (to_dict r) "annual_opex" = Ok (VNum (r_annual_opex r)) /\
  getitem (to_dict r) "opex_ratio" = Ok (VNum (r_opex_ratio r)) /\
  getitem (to_dict r) "noi" = Ok (VNum (r_noi r)) /\
  getitem (to_dict r) "annual_debt_service"
    = Ok (VNum (r_annual_debt_service r)) /\
  getitem (to_dict r) "cash_flow" = Ok (VNum (r_cash_flow r)) /\
  getitem (to_dict r) "coc" = Ok (VNum (r_coc r)) /\
  getitem (to_dict r) "principal_paydown" = Ok (VNum (r_principal_paydown r)) /\
  getitem (to_dict r) "appreciation" = Ok (VNum (r_appreciation r)) /\
  getitem (to_dict r) "total_return" = Ok (VNum (r_total_return r)) /\
  getitem (to_dict r) "cap_rate" = Ok (VNum (r_cap_rate r)).
Proof. vm_compute. repeat split. Qed.

Lemma format_roe_summary_text (r : roe_result) :
  format_roe_summary (to_dict r) = Ok (summary_text r).
Proof.
  destruct (getitem_to_dict r)
    as (Ht & H1 & H2 & H3 & H4 & H5 & H6 & H7 & H8 & H9 & H10 & H11 & H12
        & H13 & H14 & H15 & H16 & H17).
  unfold format_roe_summary, format_with. rewrite Ht.
  cbn [mbind result_bind]. unfold summary_template.
  cbn [render_all render mbind result_bind].
  rewrite H1, H2, H3, H4, H5, H6, H7, H8, H9, H10, H11, H12, H13, H14, H15,
    H16, H17.
  cbn [as_formattable mbind result_bind]. reflexivity.
Qed.

(** C8, as the code has it: for every result record the summary is returned
    (no exception) as the fixed sequence of labeled lines of the template
    (headline with tier label and ROE; purchase price, down payment, loan;
    units, rent per unit; gross rents, operating expenses with the OpEx
    ratio, NOI; NOI, debt service, cash flow with CoC; cash flow, principal
    paydown, appreciation, total return; ROE, cap rate).  ROE and CoC are
    rendered to one decimal place, the OpEx ratio to none and the cap rate to
    two: a percentage rendered with precision p shows exactly p decimals.
    Every currency field has thousands separators and no decimals. *)
Theorem format_roe_summary_rendering (r : roe_result) :
  format_roe_summary (to_dict r) = Ok (summary_text r) /\
  (forall (prec : nat) (q : Q),
     fraction_digits (py_format (FPercent prec) q) = prec) /\
  (forall q : Q,
     thousands_grouped (py_format (FFixed true 0) q) = true /\
     fraction_digits (py_format (FFixed true 0) q) = O).
Proof.
  split; [apply format_roe_summary_text|].
  split; [apply fraction_digits_percent|].
  intros q. split; [apply thousands_grouped_money|apply fraction_digits_money].
Qed.

(** C8 as stated fails: on the record of a four-unit property bought for
    400,000 with an interest-free loan, the summary shows the OpEx ratio
    without decimals ([35%]) and the cap rate with two ([10.92%]), so it is
    not the text with every percentage to one decimal place; and the fields
    follow the template, which puts price and financing before rent and
    income, not the order of the calculation steps. *)
Lemma format_roe_summary_decimals_counterexample :
  exists r,
    calculate_roe (mk_calc 0.35 0.25 0 30 0) (VNum 400000) (VNum 4)
      (VNum 4000) (VStr "75201") None = Ok r /\
    py_format (FPercent 0) (r_opex_ratio r) = "35%"%string /\
    py_format (FPercent 2) (r_cap_rate r) = "10.92%"%string /\
    fraction_digits (py_format (FPercent 2) (r_cap_rate r)) = 2%nat /\
    format_roe_summary (to_dict r) <> summary_as_specified (to_dict r) /\
    omap field_key summary_template
      = ["roe"; "purchase_price"; "down_payment"; "loan_amount"; "units";
         "monthly_rent_per_unit"; "annual_gross_rent"; "annual_opex";
         "opex_ratio"; "noi"; "noi"; "annual_debt_service"; "cash_flow";
         "coc"; "cash_flow"; "principal_paydown"; "appreciation";
         "total_return"; "roe"; "cap_rate"]%string.
Proof.
  eexists. split; [vm_compute; reflexivity|].
  split; [vm_compute; reflexivity|].
  split; [vm_compute; reflexivity|].
  split; [vm_compute; reflexivity|].
  split; [vm_compute; discriminate|reflexivity].
Qed.

(** * Further properties of the engine *)

(** ** Mortgage payment *)

(** X1: a term of zero years raises [ZeroDivisionError] for every loan
    amount and every rate: the zero-rate branch divides by 0 payments and
    the formula by [(1 + r)^0 - 1]. *)
Theorem zero_term_raises (loan_amount annual_rate : Q) :
  calculate_mortgage_payment loan_amount annual_rate 0
    = Raise ZeroDivisionError.
Proof.
  unfold calculate_mortgage_payment. cbn [Z.mul].
  destruct (py_eq (annual_rate / 12) 0); [reflexivity|].
  unfold py_pow. cbn [Z.ltb Z.compare]. rewrite andb_false_r. reflexivity.
Qed.

(** X2: the payment is proportional to the loan amount: whenever a payment
    is computed for a loan, the payment for [k] times that loan is computed
    too and is [k] times as large. *)
Theorem payment_scales_with_loan (loan_amount annual_rate : Q) (years : Z)
    (k payment : Q) :
  calculate_mortgage_payment loan_amount annual_rate years = Ok payment ->
  exists payment',
    calculate_mortgage_payment (k * loan_amount) annual_rate years
      = Ok payment' /\
    payment' == k * payment.
Proof.
  unfold calculate_mortgage_payment.
  set (m := annual_rate / 12). set (n := (years * 12)%Z).
  destruct (py_eq m 0).
  - intros H. apply py_div_inv in H as [Hn HP].
    rewrite (py_div_ok _ _ Hn). eexists. split; [reflexivity|].
    rewrite Qred_correct, HP. field. exact Hn.
  - unfold py_pow. destruct (py_eq (1 + m) 0 && (n <? 0)%Z); [discriminate|].
    cbn [mbind result_bind]. intros H. apply py_div_inv in H as [Hn HP].
    rewrite (py_div_ok _ _ Hn). eexists. split; [reflexivity|].
    rewrite Qred_correct, HP. field. exact Hn.
Qed.

Lemma payment_scales_with_loan_witness :
  exists payment,
    calculate_mortgage_payment 1200 0.12 1 = Ok payment /\
    exists payment',
      calculate_mortgage_payment (3 * 1200) 0.12 1 = Ok payment' /\
      payment' == 3 * payment.
Proof.
  eexists. split; [vm_compute; reflexivity|].
  apply (payment_scales_with_loan 1200 0.12 1 3). vm_compute. reflexivity.
Defined.

(** X3: for a positive loan, a non-negative rate and a term of at least one
    year the payment is positive and strictly larger than the first month's
    interest, so every payment retires some principal. *)
Theorem payment_exceeds_interest (loan_amount annual_rate : Q) (years : Z)
    (payment : Q) :
  0 < loan_amount -> 0 <= annual_rate -> (0 < years)%Z ->
  calculate_mortgage_payment loan_amount annual_rate years = Ok payment ->
  0 < payment /\ loan_amount * (annual_rate / 12) < payment.
Proof.
  intros HL Hr Hy HP.
  pose proof (monthly_rate_nonneg _ Hr) as Hm.
  apply mortgage_payment_inv in HP. cbv zeta in HP.
  set (m := annual_rate / 12) in *. set (n := (years * 12)%Z) in *.
  destruct HP as [(Hz & _ & HP)|(Hnz & Hd & HP)].
  - assert (Hn : 0 < inject_Z n).
    { change 0 with (inject_Z 0). rewrite <- Zlt_Qlt. unfold n. lia. }
    assert (Hpos : 0 < payment).
    { rewrite HP. apply Qlt_shift_div_l; [exact Hn|lra]. }
    split; [exact Hpos|]. rewrite Hz. lra.
  - assert (Hmpos : 0 < m) by lra.
    set (X := (1 + m) ^ n) in *.
    assert (HX : 0 < X) by (apply Qpower_0_lt; lra).
    assert (HX1 : 0 < X - 1).
    { assert (1 < X) by (apply Qpower_1_lt; [lra|unfold n; lia]). lra. }
    assert (HLm : 0 < loan_amount * m) by (apply Qmult_lt_0_compat; lra).
    assert (Hpos : 0 < payment).
    { apply (Qmult_lt_r _ _ (X - 1)); [exact HX1|]. rewrite HP.
      rewrite Qmult_0_l. apply Qmult_lt_0_compat; assumption. }
    split; [exact Hpos|].
    apply (Qmult_lt_r _ _ (X - 1)); [exact HX1|]. rewrite HP.
    assert (E : loan_amount * m * X
                == loan_amount * m * (X - 1) + loan_amount * m) by ring.
    rewrite E. lra.
Qed.

Lemma payment_exceeds_interest_witness :
  exists payment,
    calculate_mortgage_payment 1200 0.12 1 = Ok payment /\
    0 < payment /\ 1200 * (0.12 / 12) < payment.
Proof.
  eexists. split; [vm_compute; reflexivity|].
  apply (payment_exceeds_interest 1200 0.12 1);
    [reflexivity|discriminate|reflexivity|vm_compute; reflexivity].
Defined.

Lemma geom_le (x : Q) (k : nat) :
  1 <= x -> geom x k <= inject_Z (Z.of_nat k) * x ^ Z.of_nat k.
Proof.
  intros Hx. induction k as [|k IH].
  - change (0 <= 0 * x ^ 0). rewrite Qmult_0_l. apply Qle_refl.
  - cbn [geom]. rewrite Qpower_succ, Nat2Z.inj_succ. unfold Z.succ.
    rewrite inject_Z_plus.
    pose proof (Qpower_0_lt x (Z.of_nat k) ltac:(lra)) as HX.
    set (X := x ^ Z.of_nat k) in *. set (K := inject_Z (Z.of_nat k)) in *.
    assert (HK : 0 <= K).
    { unfold K. change 0 with (inject_Z 0). rewrite <- Zle_Qle. lia. }
    assert (H1 : X <= x * X).
    { rewrite <- (Qmult_1_l X) at 1. apply Qmult_le_compat_r; lra. }
    assert (H2 : K * X <= K * (x * X)).
    { rewrite !(Qmult_comm K). apply Qmult_le_compat_r; assumption. }
    change (inject_Z 1) with 1.
    assert (E : (K + 1) * (x * X) == K * (x * X) + x * X) by ring.
    rewrite E. lra.
Qed.

Lemma geom_lt (x : Q) (k : nat) :
  1 < x -> geom x (S k) < inject_Z (Z.of_nat (S k)) * x ^ Z.of_nat (S k).
Proof.
  intros Hx. cbn [geom]. rewrite Qpower_succ, Nat2Z.inj_succ. unfold Z.succ.
  rewrite inject_Z_plus.
  pose proof (geom_le x k ltac:(lra)) as Hle.
  pose proof (Qpower_0_lt x (Z.of_nat k) ltac:(lra)) as HX.
  set (X := x ^ Z.of_nat k) in *. set (K := inject_Z (Z.of_nat k)) in *.
  assert (HK : 0 <= K).
  { unfold K. change 0 with (inject_Z 0). rewrite <- Zle_Qle. lia. }
  assert (H1 : X < x * X).
  { rewrite <- (Qmult_1_l X) at 1. apply Qmult_lt_r; lra. }
  assert (H2 : K * X <= K * (x * X)).
  { rewrite !(Qmult_comm K). apply Qmult_le_compat_r; lra. }
  change (inject_Z 1) with 1.
  assert (E : (K + 1) * (x * X) == K * (x * X) + x * X) by ring.
  rewrite E. lra.
Qed.

(** X4: over the whole term the borrower pays back at least the loan: the
    [years * 12] payments add up to exactly the loan amount at a zero rate
    and to strictly more at a positive rate. *)
Theorem payments_repay_at_least_the_loan (loan_amount annual_rate : Q)
    (years : Z) (payment : Q) :
  0 < loan_amount -> 0 <= annual_rate -> (0 < years)%Z ->
  calculate_mortgage_payment loan_amount annual_rate years = Ok payment ->
  loan_amount <= inject_Z (years * 12) * payment /\
  (0 < annual_rate -> loan_amount < inject_Z (years * 12) * payment) /\
  (annual_rate == 0 -> inject_Z (years * 12) * payment == loan_amount).
Proof.
  intros HL Hr Hy HP.
  pose proof (monthly_rate_nonneg _ Hr) as Hm.
  apply mortgage_payment_inv in HP. cbv zeta in HP.
  set (m := annual_rate / 12) in *. set (n := (years * 12)%Z) in *.
  assert (Hn : 0 < inject_Z n).
  { change 0 with (inject_Z 0). rewrite <- Zlt_Qlt. unfold n. lia. }
  destruct HP as [(Hz & _ & HP)|(Hnz & Hd & HP)].
  - assert (E : inject_Z n * payment == loan_amount).
    { rewrite HP. field. lra. }
    split; [rewrite E; apply Qle_refl|]. split; [|intros _; exact E].
    intros Hpos. pose proof (monthly_rate_pos _ Hpos). unfold m in Hz. lra.
  - assert (Hmpos : 0 < m) by lra.
    assert (Hstrict : loan_amount < inject_Z n * payment).
    { set (X := (1 + m) ^ n) in *.
      assert (HX1 : 0 < X - 1).
      { assert (1 < X) by (apply Qpower_1_lt; [lra|unfold n; lia]). lra. }
      assert (HLm : 0 < loan_amount * m) by (apply Qmult_lt_0_compat; lra).
      destruct (Z.to_nat n) as [|k] eqn:Ek; [unfold n in Ek; lia|].
      assert (Hk : Z.of_nat (S k) = n) by lia.
      pose proof (geom_lt (1 + m) k ltac:(lra)) as HG.
      pose proof (geom_closed m (S k)) as Hg.
      rewrite Hk in HG, Hg. fold X in HG, Hg.
      set (G := geom (1 + m) (S k)) in *.
      apply (Qmult_lt_r _ _ (X - 1)); [exact HX1|].
      assert (E1 : inject_Z n * payment * (X - 1)
                   == loan_amount * m * (inject_Z n * X)).
      { rewrite <- Qmult_assoc, HP. ring. }
      assert (E2 : loan_amount * (X - 1) == loan_amount * m * G).
      { rewrite <- Hg. ring. }
      rewrite E1, E2. apply Qmult_lt_l; assumption. }
    split; [lra|]. split; [intros _; exact Hstrict|].
    intros H0. exfalso. apply Hnz. unfold m. rewrite H0. reflexivity.
Qed.

Lemma payments_repay_at_least_the_loan_witness :
  exists payment,
    calculate_mortgage_payment 1200 0.12 1 = Ok payment /\
    1200 <= inject_Z (1 * 12) * payment /\
    (0 < 0.12 -> 1200 < inject_Z (1 * 12) * payment) /\
    (0.12 == 0 -> inject_Z (1 * 12) * payment == 1200).
Proof.
  eexists. split; [vm_compute; reflexivity|].
  apply (payments_repay_at_least_the_loan 1200 0.12 1);
    [reflexivity|discriminate|reflexivity|vm_compute; reflexivity].
Defined.

(** ** Year-1 principal paydown *)

(** X5: for every loan, payment and rate, the principal retired in the
    twelve months and the balance left after them add up to the loan
    amount. *)
Theorem paydown_plus_balance_is_loan (loan_amount monthly_payment annual_rate : Q) :
  calculate_principal_paydown_year1 loan_amount monthly_payment annual_rate
  + ending_balance loan_amount monthly_payment annual_rate 12
  == loan_amount.
Proof.
  unfold calculate_principal_paydown_year1, ending_balance. cbv zeta.
  rewrite amortize_conserved. ring.
Qed.

(** X6: a one-year loan is retired entirely in Year 1: on the payment
    computed for a term of one year and a non-negative rate the paydown
    equals the loan amount. *)
Theorem one_year_loan_paid_down_in_full (loan_amount annual_rate payment : Q) :
  0 <= annual_rate ->
  calculate_mortgage_payment loan_amount annual_rate 1 = Ok payment ->
  calculate_principal_paydown_year1 loan_amount payment annual_rate
    == loan_amount.
Proof.
  intros Hr HP.
  pose proof (monthly_rate_nonneg _ Hr) as Hm.
  apply mortgage_payment_inv in HP. cbv zeta in HP.
  rewrite paydown_closed.
  set (m := annual_rate / 12) in *.
  pose proof (geom_closed m 12) as Hg.
  set (G := geom (1 + m) 12) in *.
  change (1 * 12)%Z with 12%Z in HP. change (Z.of_nat 12) with 12%Z in Hg.
  destruct HP as [(Hz & _ & HP)|(Hnz & Hd & HP)].
  - assert (HG12 : G == 12).
    { unfold G. rewrite geom_one; [reflexivity|rewrite Hz; reflexivity]. }
    rewrite HG12, HP, Hz. change (inject_Z 12) with 12. field.
  - set (X := (1 + m) ^ 12) in *.
    assert (Hm0 : ~ m == 0) by exact Hnz.
    assert (E : m * (G * (payment - loan_amount * m))
                == m * loan_amount).
    { assert (E1 : m * (G * (payment - loan_amount * m))
                   == (m * G) * payment - loan_amount * m * (m * G)) by ring.
      rewrite E1, Hg, Qmult_comm, HP. ring. }
    apply (Qmult_inj_l _ _ m Hm0). exact E.
Qed.

Lemma one_year_loan_paid_down_in_full_witness :
  exists payment,
    calculate_mortgage_payment 1200 0.12 1 = Ok payment /\
    calculate_principal_paydown_year1 1200 payment 0.12 == 1200.
Proof.
  eexists. split; [vm_compute; reflexivity|].
  apply (one_year_loan_paid_down_in_full 1200 0.12);
    [discriminate|vm_compute; reflexivity].
Defined.

(** X7: for any payment, not only the computed one, and a non-negative
    rate: the Year-1 paydown is positive exactly when the payment exceeds
    the first month's interest, zero for an interest-only payment and
    negative (the balance grows) for a smaller one. *)
Theorem paydown_sign_follows_payment (loan_amount monthly_payment annual_rate : Q) :
  0 <= annual_rate ->
  let interest := loan_amount * (annual_rate / 12) in
  let paydown :=
    calculate_principal_paydown_year1 loan_amount monthly_payment annual_rate in
  (interest < monthly_payment <-> 0 < paydown) /\
  (monthly_payment == interest <-> paydown == 0) /\
  (monthly_payment < interest <-> paydown < 0).
Proof.
  intros Hr interest paydown.
  pose proof (monthly_rate_nonneg _ Hr) as Hm.
  pose proof (paydown_closed loan_amount monthly_payment annual_rate) as HT.
  fold paydown interest in HT.
  pose proof (geom_pos (1 + annual_rate / 12) 11 ltac:(lra)) as HG.
  set (G := geom _ 12) in *. set (d := monthly_payment - interest) in *.
  assert (Hpos : 0 < d -> 0 < paydown).
  { intros H. rewrite HT. apply Qmult_lt_0_compat; assumption. }
  assert (Hneg : d < 0 -> paydown < 0).
  { intros H. rewrite HT.
    assert (0 < G * - d) by (apply Qmult_lt_0_compat; lra).
    assert (E : G * - d == - (G * d)) by ring. lra. }
  assert (Hzero : d == 0 -> paydown == 0).
  { intros H. rewrite HT, H. ring. }
  unfold d in *.
  destruct (Q_dec monthly_payment interest) as [[Hlt|Hgt]|Heq].
  - specialize (Hneg ltac:(lra)). repeat split; intros; lra.
  - specialize (Hpos ltac:(lra)). repeat split; intros; lra.
  - specialize (Hzero ltac:(lra)). repeat split; intros; lra.
Qed.

Lemma paydown_sign_follows_payment_witness :
  let interest := 1200 * (0.12 / 12) in
  let paydown := calculate_principal_paydown_year1 1200 12 0.12 in
  (interest < 12 <-> 0 < paydown) /\
  (12 == interest <-> paydown == 0) /\
  (12 < interest <-> paydown < 0).
Proof. apply (paydown_sign_follows_payment 1200 12 0.12). discriminate. Defined.

(** ** Rent estimation *)

Lemma base_rate_of_pos (zip_code : pyval) : 1 <= base_rate_of zip_code.
Proof.
  destruct (base_rate_of_cases zip_code) as [E|[E|E]]; rewrite E; discriminate.
Qed.

Lemma py_clamp_mono lo hi x y :
  x <= y -> py_max lo (py_min x hi) <= py_max lo (py_min y hi).
Proof.
  intros Hxy. unfold py_max, py_min.
  destruct (py_lt hi x) eqn:E1, (py_lt hi y) eqn:E2; py_cases;
    repeat match goal with
           | |- context [py_gt ?a ?b] =>
               let E := fresh "E" in destruct (py_gt a b) eqn:E; py_cases
           end; lra.
Qed.

(** X8: the estimated rent never decreases when the square footage per
    unit grows, whatever the ZIP code. *)
Theorem estimate_market_rent_monotone (zip_code : pyval) (sqft1 sqft2 : Q) :
  sqft1 <= sqft2 ->
  estimate_market_rent zip_code sqft1 <= estimate_market_rent zip_code sqft2.
Proof.
  intros H. unfold estimate_market_rent. apply py_clamp_mono.
  apply Qmult_le_compat_r; [exact H|].
  pose proof (base_rate_of_pos zip_code). lra.
Qed.

Lemma estimate_market_rent_monotone_witness :
  estimate_market_rent (VStr "75201") 900
    <= estimate_market_rent (VStr "75201") 1000.
Proof.
  apply (estimate_market_rent_monotone (VStr "75201") 900 1000). discriminate.
Defined.

(** X9: a ZIP code that is not text (the number 75201 read from a CSV file,
    or a missing value) is in neither list: it gets the value rate 1.00 and
    the rent of an unlisted ZIP, also when its digits are those of a
    high-rent ZIP. *)
Theorem non_text_zip_gets_value_rate (zip_code : pyval) (sqft_per_unit : Q) :
  (forall s : string, zip_code <> VStr s) ->
  base_rate_of zip_code = 1.00 /\
  estimate_market_rent zip_code sqft_per_unit
    = estimate_market_rent (VStr "00000") sqft_per_unit.
Proof.
  intros H.
  assert (E : base_rate_of zip_code = 1.00).
  { destruct zip_code; try reflexivity. exfalso. exact (H s eq_refl). }
  split; [exact E|]. unfold estimate_market_rent. rewrite E. reflexivity.
Qed.

Lemma non_text_zip_gets_value_rate_witness :
  base_rate_of (VNum 75201) = 1.00 /\
  estimate_market_rent (VNum 75201) 1000
    = estimate_market_rent (VStr "00000") 1000.
Proof.
  apply (non_text_zip_gets_value_rate (VNum 75201) 1000).
  intros s. discriminate.
Defined.

(** X10: for a non-negative square footage a ZIP code with a higher rate
    never gets a lower rent: value areas at most mid-rent ZIPs at most
    high-rent ZIPs. *)
Theorem higher_rate_zip_never_cheaper (zip1 zip2 : pyval) (sqft_per_unit : Q) :
  0 <= sqft_per_unit ->
  base_rate_of zip1 <= base_rate_of zip2 ->
  estimate_market_rent zip1 sqft_per_unit
    <= estimate_market_rent zip2 sqft_per_unit.
Proof.
  intros Hs Hr. unfold estimate_market_rent. apply py_clamp_mono.
  rewrite !(Qmult_comm sqft_per_unit). apply Qmult_le_compat_r; assumption.
Qed.

Lemma higher_rate_zip_never_cheaper_witness :
  estimate_market_rent (VStr "75206") 1000
    <= estimate_market_rent (VStr "75201") 1000.
Proof.
  apply (higher_rate_zip_never_cheaper (VStr "75206") (VStr "75201") 1000);
    discriminate.
Defined.

(** X11: the clamp saturates for every ZIP code: 2500 sqft per unit or more
    gives the ceiling of 2500, and 571 sqft per unit or less (down to zero
    and negative values) gives the floor of 800. *)
Theorem estimate_market_rent_saturates (zip_code : pyval) (sqft_per_unit : Q) :
  (2500 <= sqft_per_unit ->
   estimate_market_rent zip_code sqft_per_unit == 2500) /\
  (sqft_per_unit <= 571 ->
   estimate_market_rent zip_code sqft_per_unit == 800).
Proof.
  unfold estimate_market_rent.
  destruct (base_rate_of_cases zip_code) as [E|[E|E]]; rewrite E;
    unfold py_max, py_min; split; intros H;
    repeat match goal with
           | |- context [py_lt ?a ?b] =>
               let E := fresh "E" in destruct (py_lt a b) eqn:E; py_cases
           | |- context [py_gt ?a ?b] =>
               let E := fresh "E" in destruct (py_gt a b) eqn:E; py_cases
           end; lra.
Qed.

(** ** Tiers *)

(** X12: the tier never goes down when ROE goes up (its threshold is
    monotone in ROE); for a non-negative ROE the threshold of the tier is at
    most the ROE, while every negative ROE is classified as pass, whose
    listed minimum of 0.00 it does not reach. *)
Theorem tier_threshold_monotone (roe1 roe2 : Q) :
  (roe1 <= roe2 ->
   tier_min (get_roe_tier roe1) <= tier_min (get_roe_tier roe2)) /\
  (0 <= roe1 -> tier_min (get_roe_tier roe1) <= roe1) /\
  (roe1 < 0 -> get_roe_tier roe1 = ROE_TIERS pass /\
               roe1 < tier_min (get_roe_tier roe1)).
Proof.
  destruct (get_roe_tier_cases roe1) as [[H1 E1]|[[H1 E1]|[[H1 E1]|[H1 E1]]]];
    destruct (get_roe_tier_cases roe2)
      as [[H2 E2]|[[H2 E2]|[[H2 E2]|[H2 E2]]]];
    rewrite E1, E2; cbn [tier_min ROE_TIERS];
    (split; [intros H|split; [intros H|intros H; split]]);
    try reflexivity; try discriminate; lra.
Qed.

(** X13: the dashboard's marker colour and icon are those of the engine's
    tier table for the same ROE. *)
Theorem marker_matches_tier_table (roe : Q) :
  get_marker_color roe = tier_color (get_roe_tier roe) /\
  get_marker_icon roe = tier_icon (get_roe_tier roe).
Proof.
  unfold get_marker_color, get_marker_icon, get_roe_tier.
  destruct (py_ge roe 0.20); [split; reflexivity|].
  destruct (py_ge roe 0.15); [split; reflexivity|].
  destruct (py_ge roe 0.10); split; reflexivity.
Qed.

(** ** The per-property calculation *)

(** What a successful calculation says about its inputs and its record. *)
Lemma calculate_roe_inv self purchase_price units sqft zip_code rent r :
  calculate_roe self purchase_price units sqft zip_code rent = Ok r ->
  exists rent_v units_v price_v payment,
    resolve_rent sqft units zip_code rent = Ok rent_v /\
    as_num units = Ok units_v /\
    as_num purchase_price = Ok price_v /\
    calculate_mortgage_payment (price_v - price_v * down_pct self)
      (rate self) (term self) = Ok payment /\
    r_monthly_rent_per_unit r = rent_v /\
    r_purchase_price r = price_v /\
    r_down_payment r = price_v * down_pct self /\
    r_loan_amount r = price_v - price_v * down_pct self /\
    r_monthly_payment r = payment /\
    r_annual_gross_rent r = rent_v * units_v * 12 /\
    r_noi r = rent_v * units_v * 12 - rent_v * units_v * 12 * opex_ratio self /\
    r_cash_flow r = r_noi r - payment * 12 /\
    r_principal_paydown r
      = calculate_principal_paydown_year1
          (price_v - price_v * down_pct self) payment (rate self) /\
    r_appreciation r = price_v * appreciation self /\
    r_total_return r = r_cash_flow r + r_principal_paydown r + r_appreciation r /\
    r_roe r = (if py_gt (r_down_payment r) 0
               then r_total_return r / r_down_payment r else 0) /\
    r_coc r = (if py_gt (r_down_payment r) 0
               then r_cash_flow r / r_down_payment r else 0) /\
    r_cap_rate r = (if py_gt price_v 0 then r_noi r / price_v else 0).
Proof.
  intros H. unfold calculate_roe in H. fold (resolve_rent sqft units zip_code rent) in H.
  bind_inv H. injection H as <-.
  match goal with
  | Hpay : calculate_mortgage_payment (?c - _) _ _ = Ok ?d
    |- exists _ _ _ _, Ok ?a = _ /\ Ok ?b = _ /\ _ =>
      exists a, b, c, d; do 3 (split; [reflexivity|]); split; [exact Hpay|]
  end.
  cbn [r_monthly_rent_per_unit r_purchase_price r_down_payment r_loan_amount
       r_monthly_payment r_annual_gross_rent r_noi r_cash_flow
       r_principal_paydown r_appreciation r_total_return r_roe r_coc
       r_cap_rate].
  repeat (split; [reflexivity|]). reflexivity.
Qed.

(** X14: a known monthly rent overrides the estimate and makes the square
    footage irrelevant: the result is the same for every [sqft] value, text
    or missing values included, and the record carries the given rent. *)
Theorem known_rent_overrides_estimate (self : ROECalculator)
    (purchase_price units sqft sqft' zip_code : pyval) (rent : Q) :
  calculate_roe self purchase_price units sqft zip_code (Some rent)
    = calculate_roe self purchase_price units sqft' zip_code (Some rent) /\
  (forall r,
     calculate_roe self purchase_price units sqft zip_code (Some rent) = Ok r ->
     r_monthly_rent_per_unit r = rent /\
     r_annual_gross_rent r == rent * r_units r * 12).
Proof.
  split; [reflexivity|]. intros r H.
  unfold calculate_roe in H. bind_inv H. injection H as <-.
  split; reflexivity.
Qed.

(** X15: without a known rent, a missing or zero square footage or a zero
    unit count falls back to 1000 sqft per unit: the rent of the record is
    the estimate for 1000 sqft in the property's ZIP code. *)
Theorem missing_sqft_defaults_to_1000 (self : ROECalculator)
    (purchase_price units sqft zip_code : pyval) (r : roe_result) :
  py_truthy sqft = false \/ py_truthy units = false ->
  calculate_roe self purchase_price units sqft zip_code None = Ok r ->
  r_monthly_rent_per_unit r = estimate_market_rent zip_code 1000.
Proof.
  intros Hf H. apply calculate_roe_inv in H.
  destruct H as (rent_v & units_v & price_v & payment & Hrent & _ & _ & _
                 & -> & _).
  unfold resolve_rent, sqft_per_unit_of in Hrent.
  assert (E : py_truthy sqft && py_truthy units = false).
  { destruct Hf as [-> | ->]; [reflexivity|apply andb_false_r]. }
  rewrite E in Hrent. cbn in Hrent. injection Hrent as <-. reflexivity.
Qed.

Lemma missing_sqft_defaults_to_1000_witness :
  exists r,
    calculate_roe (mk_calc 0.35 0.25 0 30 0) (VNum 400000) (VNum 4)
      VNone (VStr "75201") None = Ok r /\
    r_monthly_rent_per_unit r = estimate_market_rent (VStr "75201") 1000.
Proof.
  eexists. split; [vm_compute; reflexivity|].
  apply (missing_sqft_defaults_to_1000 (mk_calc 0.35 0.25 0 30 0)
           (VNum 400000) (VNum 4) VNone (VStr "75201"));
    [left; reflexivity|vm_compute; reflexivity].
Defined.

Lemma payment_bounds (loan_amount annual_rate : Q) (years : Z) (payment : Q) :
  0 < loan_amount -> 0 <= annual_rate -> (0 < years)%Z ->
  calculate_mortgage_payment loan_amount annual_rate years = Ok payment ->
  loan_amount * (annual_rate / 12) < payment.
Proof.
  intros HL Hr Hy HP.
  pose proof (monthly_rate_nonneg _ Hr) as Hm.
  apply mortgage_payment_inv in HP. cbv zeta in HP.
  set (m := annual_rate / 12) in *. set (n := (years * 12)%Z) in *.
  destruct HP as [(Hz & _ & HP)|(Hnz & Hd & HP)].
  - assert (Hn : 0 < inject_Z n).
    { change 0 with (inject_Z 0). rewrite <- Zlt_Qlt. unfold n. lia. }
    assert (Hpos : 0 < payment).
    { rewrite HP. apply Qlt_shift_div_l; [exact Hn|lra]. }
    rewrite Hz. lra.
  - set (X := (1 + m) ^ n) in *.
    assert (HX1 : 0 < X - 1).
    { assert (1 < X) by (apply Qpower_1_lt; [lra|unfold n; lia]). lra. }
    assert (HLm : 0 < loan_amount * m) by (apply Qmult_lt_0_compat; lra).
    apply (Qmult_lt_r _ _ (X - 1)); [exact HX1|]. rewrite HP.
    assert (E : loan_amount * m * X
                == loan_amount * m * (X - 1) + loan_amount * m) by ring.
    rewrite E. lra.
Qed.

(** X16: for a leveraged purchase (positive price, a down-payment fraction
    strictly between 0 and 1) with a non-negative rate, a term of at least
    one year and no depreciation, ROE is strictly above cash-on-cash: the
    difference is the Year-1 paydown plus appreciation, per dollar of down
    payment. *)
Theorem leveraged_roe_exceeds_coc (self : ROECalculator) (purchase_price : Q)
    (units sqft zip_code : pyval) (rent : option Q) (r : roe_result) :
  0 < purchase_price -> 0 < down_pct self < 1 -> 0 <= rate self ->
  (0 < term self)%Z -> 0 <= appreciation self ->
  calculate_roe self (VNum purchase_price) units sqft zip_code rent = Ok r ->
  r_coc r < r_roe r /\
  r_roe r == r_coc r
             + (r_principal_paydown r + r_appreciation r) / r_down_payment r.
Proof.
  intros Hp [Hd0 Hd1] Hr Ht Ha H. apply calculate_roe_inv in H.
  destruct H as (rent_v & units_v & price_v & payment & _ & _ & Hprice & Hpay
                 & _ & _ & Hdown & _ & _ & _ & _ & _ & Hprin & Happ & Htot
                 & Hroe & Hcoc & _).
  injection Hprice as <-.
  set (down := purchase_price * down_pct self) in *.
  set (loan := purchase_price - down) in *.
  assert (Hdown_pos : 0 < down) by (apply Qmult_lt_0_compat; lra).
  assert (Hloan_pos : 0 < loan).
  { unfold loan, down.
    assert (E : purchase_price - purchase_price * down_pct self
                == purchase_price * (1 - down_pct self)) by ring.
    rewrite E. apply Qmult_lt_0_compat; lra. }
  pose proof (payment_bounds loan (rate self) (term self) payment
                Hloan_pos Hr Ht Hpay) as Hint.
  pose proof (paydown_closed loan payment (rate self)) as HT.
  pose proof (geom_pos (1 + rate self / 12) 11
                ltac:(pose proof (monthly_rate_nonneg _ Hr); lra)) as HG.
  assert (Hprin_pos : 0 < r_principal_paydown r).
  { rewrite Hprin, HT. apply Qmult_lt_0_compat; [exact HG|lra]. }
  assert (Happ_pos : 0 <= r_appreciation r).
  { rewrite Happ. apply Qmult_le_0_compat; lra. }
  assert (Hgt : py_gt (r_down_payment r) 0 = true).
  { apply py_gt_true. rewrite Hdown. exact Hdown_pos. }
  rewrite Hgt in Hroe, Hcoc. rewrite Hroe, Hcoc, Htot.
  assert (Hd : 0 < r_down_payment r) by (rewrite Hdown; exact Hdown_pos).
  assert (E : (r_cash_flow r + r_principal_paydown r + r_appreciation r)
              / r_down_payment r
              == r_cash_flow r / r_down_payment r
                 + (r_principal_paydown r + r_appreciation r)
                   / r_down_payment r) by (field; lra).
  split; [|exact E]. rewrite E.
  assert (0 < (r_principal_paydown r + r_appreciation r) / r_down_payment r).
  { apply Qlt_shift_div_l; [exact Hd|lra]. }
  lra.
Qed.

Lemma leveraged_roe_exceeds_coc_witness :
  exists r,
    calculate_roe (mk_calc 0.35 0.25 0.12 1 0) (VNum 100000) (VNum 4)
      (VNum 4000) (VStr "75201") None = Ok r /\
    r_coc r < r_roe r /\
    r_roe r == r_coc r
               + (r_principal_paydown r + r_appreciation r) / r_down_payment r.
Proof.
  eexists. split; [vm_compute; reflexivity|].
  apply (leveraged_roe_exceeds_coc (mk_calc 0.35 0.25 0.12 1 0) 100000
           (VNum 4) (VNum 4000) (VStr "75201") None);
    [reflexivity|split; reflexivity|discriminate|reflexivity|discriminate
    |vm_compute; reflexivity].
Defined.

(** X17: rent, gross rent, NOI and cap rate do not depend on the financing
    assumptions: two calculators with the same OpEx ratio give the same
    values for the same property, whatever their down payment, rate, term
    and appreciation. *)
Theorem noi_and_cap_rate_ignore_financing (self self' : ROECalculator)
    (purchase_price units sqft zip_code : pyval) (rent : option Q)
    (r r' : roe_result) :
  opex_ratio self = opex_ratio self' ->
  calculate_roe self purchase_price units sqft zip_code rent = Ok r ->
  calculate_roe self' purchase_price units sqft zip_code rent = Ok r' ->
  r_monthly_rent_per_unit r = r_monthly_rent_per_unit r' /\
  r_annual_gross_rent r = r_annual_gross_rent r' /\
  r_noi r = r_noi r' /\
  r_cap_rate r = r_cap_rate r'.
Proof.
  intros Ho H H'. apply calculate_roe_inv in H, H'.
  destruct H as (rent_v & units_v & price_v & payment & Hrent & Hu & Hp & _
                 & Hr1 & _ & _ & _ & _ & Hg & Hn & _ & _ & _ & _ & _ & _ & Hc).
  destruct H' as (rent_v' & units_v' & price_v' & payment' & Hrent' & Hu' & Hp'
                  & _ & Hr1' & _ & _ & _ & _ & Hg' & Hn' & _ & _ & _ & _ & _ & _
                  & Hc').
  rewrite Hrent in Hrent'. injection Hrent' as <-.
  rewrite Hu in Hu'. injection Hu' as <-.
  rewrite Hp in Hp'. injection Hp' as <-.
  rewrite <- Ho in Hn'.
  assert (En : r_noi r = r_noi r') by congruence.
  repeat split; try congruence.
  rewrite Hc, Hc', En. reflexivity.
Qed.

Lemma noi_and_cap_rate_ignore_financing_witness :
  exists r r',
    calculate_roe (mk_calc 0.35 0.25 0 30 0) (VNum 400000) (VNum 4)
      (VNum 4000) (VStr "75201") None = Ok r /\
    calculate_roe (mk_calc 0.35 0.50 0.12 1 0.03) (VNum 400000) (VNum 4)
      (VNum 4000) (VStr "75201") None = Ok r' /\
    r_monthly_rent_per_unit r = r_monthly_rent_per_unit r' /\
    r_annual_gross_rent r = r_annual_gross_rent r' /\
    r_noi r = r_noi r' /\
    r_cap_rate r = r_cap_rate r'.
Proof.
  eexists _, _. split; [vm_compute; reflexivity|].
  split; [vm_compute; reflexivity|].
  apply (noi_and_cap_rate_ignore_financing (mk_calc 0.35 0.25 0 30 0)
           (mk_calc 0.35 0.50 0.12 1 0.03) (VNum 400000) (VNum 4) (VNum 4000)
           (VStr "75201") None);
    [reflexivity|vm_compute; reflexivity|vm_compute; reflexivity].
Defined.

(** ** The batch: rows, log and summary *)

Lemma to_dict_lookup_tier (rc : roe_result) :
  to_dict rc !! "tier"%string = Some (VTier (r_tier rc)).
Proof. vm_compute. reflexivity. Qed.

Lemma to_dict_lookup_hurdle (rc : roe_result) :
  to_dict rc !! "meets_hurdle"%string = Some (VBool (r_meets_hurdle rc)).
Proof. vm_compute. reflexivity. Qed.

Lemma to_dict_lookup_other (rc : roe_result) (k : string) :
  ~ In k metric_columns -> to_dict rc !! k = None.
Proof.
  intros H. unfold to_dict. apply not_elem_of_list_to_map_1.
  intros Hin. apply H. apply list_elem_of_In in Hin. exact Hin.
Qed.

Lemma row_result_inv self row d :
  row_result self row = Some d ->
  exists rc, roe_calc_of_row self row = Ok rc /\ d = to_dict rc ∪ row.
Proof.
  unfold row_result. destruct (roe_calc_of_row self row) as [rc|e];
    [|discriminate].
  intros [= <-]. eauto.
Qed.

Lemma analyze_portfolio_ok_inv self df out :
  (analyze_portfolio self df).2 = Ok out ->
  forallb (row_fails self) df = false /\ out = omap (row_result self) df.
Proof.
  rewrite analyze_portfolio_result.
  destruct (forallb (row_fails self) df); [discriminate|].
  intros [= <-]. split; reflexivity.
Qed.

Lemma omap_row_result_nonempty self df :
  forallb (row_fails self) df = false -> omap (row_result self) df <> [].
Proof.
  induction df as [|row df IH]; [discriminate|].
  rewrite omap_row_result_cons. cbn [forallb]. unfold row_fails at 1.
  destruct (roe_calc_of_row self row); [discriminate|exact IH].
Qed.

(** X18: when the calculation succeeds for at least one row, the batch
    returns the output rows of the rows that succeed, in input order: N - K
    rows for N input rows of which K fail. *)
Theorem batch_returns_succeeding_rows (self : ROECalculator)
    (df : list (gmap string pyval)) :
  forallb (row_fails self) df = false ->
  exists out,
    (analyze_portfolio self df).2 = Ok out /\
    out = omap (row_result self) df /\
    length out = (length df - failing_rows self df)%nat.
Proof.
  intros H. rewrite analyze_portfolio_result, H. eexists.
  split; [reflexivity|]. split; [reflexivity|].
  pose proof (row_result_length self df). lia.
Qed.

Lemma batch_returns_succeeding_rows_witness :
  exists out,
    (analyze_portfolio interest_free_calculator two_row_table).2 = Ok out /\
    out = omap (row_result interest_free_calculator) two_row_table /\
    length out
      = (length two_row_table
         - failing_rows interest_free_calculator two_row_table)%nat.
Proof.
  apply (batch_returns_succeeding_rows interest_free_calculator two_row_table).
  vm_compute. reflexivity.
Defined.

(** X19: a table returned by the batch is never empty and never longer than
    the input, and some input row succeeded; so the report's division by the
    number of rows never divides by zero. *)
Theorem batch_never_returns_empty_table (self : ROECalculator)
    (df out : list (gmap string pyval)) :
  (analyze_portfolio self df).2 = Ok out ->
  out <> [] /\ (0 < length out <= length df)%nat /\
  exists row, In row df /\ row_fails self row = false.
Proof.
  intros H. apply analyze_portfolio_ok_inv in H as [Hf ->].
  pose proof (omap_row_result_nonempty self df Hf) as Hne.
  split; [exact Hne|]. split.
  - pose proof (row_result_length self df).
    destruct (omap (row_result self) df); [contradiction|]. cbn in *. lia.
  - clear Hne. induction df as [|row df IH]; [discriminate|].
    cbn [forallb] in Hf. apply andb_false_iff in Hf as [Hf|Hf].
    + exists row. split; [left; reflexivity|exact Hf].
    + destruct (IH Hf) as (r & Hin & Hr). exists r. split; [right|]; assumption.
Qed.

Lemma batch_never_returns_empty_table_witness :
  let out := omap (row_result interest_free_calculator) two_row_table in
  out <> [] /\ (0 < length out <= length two_row_table)%nat /\
  exists row, In row two_row_table
              /\ row_fails interest_free_calculator row = false.
Proof.
  apply (batch_never_returns_empty_table interest_free_calculator
           two_row_table
           (omap (row_result interest_free_calculator) two_row_table)).
  rewrite analyze_portfolio_result. vm_compute (forallb _ _). reflexivity.
Defined.

(** X20: every output row of the batch extends an input row whose
    calculation succeeded: each computed column holds the value of the
    calculation (replacing an input column of the same name), and every other
    column holds the cell of the input row, a missing one staying missing. *)
Theorem output_row_extends_input_row (self : ROECalculator)
    (df out : list (gmap string pyval)) :
  (analyze_portfolio self df).2 = Ok out ->
  Forall (fun d =>
    exists row rc,
      In row df /\ roe_calc_of_row self row = Ok rc /\
      (forall k, In k metric_columns -> d !! k = to_dict rc !! k) /\
      (forall k, ~ In k metric_columns -> d !! k = row !! k)) out.
Proof.
  intros H. apply analyze_portfolio_ok_inv in H as [_ ->].
  apply Forall_forall. intros d Hd.
  apply list_elem_of_omap in Hd as (row & Hin & Hrow).
  apply row_result_inv in Hrow as (rc & Hrc & ->).
  exists row, rc. split; [apply list_elem_of_In; exact Hin|].
  split; [exact Hrc|]. split; intros k Hk.
  - destruct (to_dict_lookup_metric rc k Hk) as [v Hv].
    rewrite lookup_union_l' by eauto. reflexivity.
  - apply lookup_union_r. apply to_dict_lookup_other. exact Hk.
Qed.

Lemma output_row_extends_input_row_witness :
  Forall (fun d =>
    exists row rc,
      In row two_row_table /\
      roe_calc_of_row interest_free_calculator row = Ok rc /\
      (forall k, In k metric_columns -> d !! k = to_dict rc !! k) /\
      (forall k, ~ In k metric_columns -> d !! k = row !! k))
    (omap (row_result interest_free_calculator) two_row_table).
Proof.
  apply (output_row_extends_input_row interest_free_calculator two_row_table).
  rewrite analyze_portfolio_result. vm_compute (forallb _ _). reflexivity.
Defined.

Lemma process_rows_log self rows acc log :
  (foldl (process_row self) (acc, log) rows).2
    = log ++ omap (row_warning self) rows.
Proof.
  revert acc log. induction rows as [|row rows IH]; intros acc log.
  - cbn. by rewrite app_nil_r.
  - cbn [foldl].
    change (omap (row_warning self) (row :: rows))
      with (match row_warning self row with
            | Some w => w :: omap (row_warning self) rows
            | None => omap (row_warning self) rows
            end).
    unfold process_row at 2, row_warning at 1.
    destruct (roe_calc_of_row self row) as [rc|e].
    + apply IH.
    + rewrite IH, <- app_assoc. reflexivity.
Qed.

Lemma row_warning_length self df :
  length (omap (row_warning self) df) = failing_rows self df.
Proof.
  unfold failing_rows. induction df as [|row df IH]; [reflexivity|].
  change (omap (row_warning self) (row :: df))
    with (match row_warning self row with
          | Some w => w :: omap (row_warning self) df
          | None => omap (row_warning self) df
          end).
  cbn [List.filter]. unfold row_fails at 1, row_warning at 1.
  destruct (roe_calc_of_row self row); cbn [length]; lia.
Qed.

(** The log and the result of the batch call. *)
Lemma analyze_portfolio_unfold self df :
  analyze_portfolio self df
    = let out := omap (row_result self) df in
      let log := InfoAnalyzing (length df) :: omap (row_warning self) df in
      match df_getitem out "roe" with
      | Raise e => (log, Raise e)
      | Ok roe =>
          (log ++ [InfoComplete (count_between roe 0.20 None)
                     (count_between roe 0.15 (Some 0.20))
                     (count_between roe 0.10 (Some 0.15))], Ok out)
      end.
Proof.
  unfold analyze_portfolio.
  pose proof (process_rows_results self df [] [InfoAnalyzing (length df)])
    as Hres.
  pose proof (process_rows_log self df [] [InfoAnalyzing (length df)])
    as Hlog.
  destruct (foldl _ _ df) as [results log]. cbn [fst snd app] in Hres, Hlog.
  subst. reflexivity.
Qed.

(** X21: the log of the batch opens with the number of input rows, followed
    by one warning for each failing row, in input order, with the address of
    the row (or [unknown]) and the exception; the completion record follows
    exactly when the batch returns a table. *)
Theorem batch_logs_every_skipped_row (self : ROECalculator)
    (df : list (gmap string pyval)) :
  exists tail,
    (analyze_portfolio self df).1
      = InfoAnalyzing (length df) :: omap (row_warning self) df ++ tail /\
    length (omap (row_warning self) df) = failing_rows self df /\
    match (analyze_portfolio self df).2 with
    | Ok _ => exists unicorns strong marginal,
                tail = [InfoComplete unicorns strong marginal]
    | Raise _ => tail = []
    end.
Proof.
  rewrite analyze_portfolio_unfold. cbv zeta.
  destruct (df_getitem (omap (row_result self) df) "roe") as [roe|e].
  - eexists. split; [reflexivity|]. split; [apply row_warning_length|].
    cbn [snd]. eauto.
  - exists []. split; [cbn [fst]; by rewrite app_nil_r|].
    split; [apply row_warning_length|reflexivity].
Qed.

(** *** The summary of an output row *)

Lemma render_all_ext template label d1 d2 :
  (forall k, In k (omap field_key template) -> getitem d1 k = getitem d2 k) ->
  render_all d1 label template = render_all d2 label template.
Proof.
  induction template as [|seg template IH]; intros H; [reflexivity|].
  cbn [render_all].
  assert (Hseg : render d1 label seg = render d2 label seg).
  { destruct seg as [s|s n| |key spec]; try reflexivity.
    cbn [render]. rewrite (H key); [reflexivity|]. cbn. left. reflexivity. }
  rewrite Hseg, IH; [reflexivity|].
  intros k Hk. apply H. destruct seg; cbn; try exact Hk. right. exact Hk.
Qed.

Lemma format_with_ext template d1 d2 :
  (forall k, In k ("tier"%string :: omap field_key template) ->
             getitem d1 k = getitem d2 k) ->
  format_with template d1 = format_with template d2.
Proof.
  intros H. unfold format_with. rewrite (H "tier"%string) by (left; reflexivity).
  destruct (getitem d2 "tier") as [tier|e]; [|reflexivity].
  cbn [mbind result_bind].
  destruct tier; try reflexivity. cbn [mbind result_bind].
  apply render_all_ext. intros k Hk. apply H. right. exact Hk.
Qed.

Lemma getitem_union_metric (rc : roe_result) (row : gmap string pyval) k :
  In k metric_columns -> getitem (to_dict rc ∪ row) k = getitem (to_dict rc) k.
Proof.
  intros Hk. destruct (to_dict_lookup_metric rc k Hk) as [v Hv].
  unfold getitem. rewrite lookup_union_l' by eauto. reflexivity.
Qed.

Lemma format_roe_summary_union (rc : roe_result) (row : gmap string pyval) :
  format_roe_summary (to_dict rc ∪ row) = Ok (summary_text rc).
Proof.
  rewrite <- format_roe_summary_text. unfold format_roe_summary.
  apply format_with_ext. intros k Hk. apply getitem_union_metric.
  cbn in Hk. unfold metric_columns. cbn [In].
  repeat (destruct Hk as [<-|Hk]; [tauto|]). destruct Hk.
Qed.

(** X22: [format_roe_summary] succeeds on every output row of the batch:
    the input columns carried along do not disturb it, and the text is the
    summary of the calculation of that row. *)
Theorem summary_of_batch_row (self : ROECalculator)
    (df out : list (gmap string pyval)) :
  (analyze_portfolio self df).2 = Ok out ->
  Forall (fun d =>
    exists row rc,
      In row df /\ roe_calc_of_row self row = Ok rc /\
      format_roe_summary d = Ok (summary_text rc)) out.
Proof.
  intros H. apply analyze_portfolio_ok_inv in H as [_ ->].
  apply Forall_forall. intros d Hd.
  apply list_elem_of_omap in Hd as (row & Hin & Hrow).
  apply row_result_inv in Hrow as (rc & Hrc & ->).
  exists row, rc. split; [apply list_elem_of_In; exact Hin|].
  split; [exact Hrc|apply format_roe_summary_union].
Qed.

Lemma summary_of_batch_row_witness :
  Forall (fun d =>
    exists row rc,
      In row two_row_table /\
      roe_calc_of_row interest_free_calculator row = Ok rc /\
      format_roe_summary d = Ok (summary_text rc))
    (omap (row_result interest_free_calculator) two_row_table).
Proof.
  apply (summary_of_batch_row interest_free_calculator two_row_table).
  rewrite analyze_portfolio_result. vm_compute (forallb _ _). reflexivity.
Defined.

(** ** The report *)

Lemma row_result_scored self row d :
  row_result self row = Some d -> scored_row d.
Proof.
  intros H. apply row_result_inv in H as (rc & Hrc & ->).
  unfold roe_calc_of_row in Hrc. bind_inv Hrc.
  apply calculate_roe_metrics in Hrc as [Hh Ht].
  exists (r_roe rc). repeat split.
  - rewrite lookup_union_l' by (rewrite to_dict_lookup_roe; eauto).
    apply to_dict_lookup_roe.
  - rewrite lookup_union_l' by (rewrite to_dict_lookup_tier; eauto).
    rewrite to_dict_lookup_tier, Ht. reflexivity.
  - rewrite lookup_union_l' by (rewrite to_dict_lookup_hurdle; eauto).
    rewrite to_dict_lookup_hurdle, Hh. reflexivity.
Qed.

Lemma batch_rows_scored self df out :
  (analyze_portfolio self df).2 = Ok out ->
  out <> [] /\ Forall scored_row out.
Proof.
  intros H. apply analyze_portfolio_ok_inv in H as [Hf ->].
  split; [apply omap_row_result_nonempty; exact Hf|].
  apply Forall_forall. intros d Hd.
  apply list_elem_of_omap in Hd as (row & _ & Hrow).
  exact (row_result_scored self row d Hrow).
Qed.

Lemma scored_has_column out :
  out <> [] -> Forall scored_row out -> has_column out "roe" = true.
Proof.
  intros Hne H. destruct H as [|d out (q & Hq & _) _]; [contradiction|].
  cbn [has_column existsb]. rewrite Hq.
  rewrite bool_decide_eq_true_2 by eauto. reflexivity.
Qed.

Lemma portfolio_bands_scored out :
  out <> [] -> Forall scored_row out ->
  portfolio_bands out
    = Ok (mk_bands (length out)
            (List.filter (roe_mask (Some 0.20) None) out)
            (List.filter (roe_mask (Some 0.15) (Some 0.20)) out)
            (List.filter (roe_mask (Some 0.10) (Some 0.15)) out)
            (List.filter (roe_mask None (Some 0.10)) out)).
Proof.
  intros Hne H. unfold portfolio_bands, select_roe.
  rewrite (scored_has_column out Hne H). reflexivity.
Qed.

(** The masks of the four bands on one row: a numeric ROE is in exactly the
    band of its value, any other cell in none. *)
Lemma roe_mask_number d q :
  row_get d "roe" VNone = VNum q ->
  roe_mask (Some 0.20) None d = py_ge q 0.20 /\
  roe_mask (Some 0.15) (Some 0.20) d = py_ge q 0.15 && negb (py_ge q 0.20) /\
  roe_mask (Some 0.10) (Some 0.15) d = py_ge q 0.10 && negb (py_ge q 0.15) /\
  roe_mask None (Some 0.10) d = negb (py_ge q 0.10).
Proof.
  intros Hq. unfold roe_mask. rewrite Hq.
  assert (Hlt : forall a, py_lt q a = negb (py_ge q a)).
  { intros a. destruct (py_ge q a) eqn:E, (py_lt q a) eqn:E'; py_cases;
      try reflexivity; lra. }
  rewrite !Hlt, andb_true_r. cbn [andb]. repeat split.
Qed.

Lemma roe_mask_not_number d lo hi :
  roe_is_number d = false -> roe_mask lo hi d = false.
Proof.
  unfold roe_is_number, roe_mask.
  destruct (row_get d "roe" VNone); try reflexivity. discriminate.
Qed.

Lemma roe_mask_is_number d lo hi :
  roe_mask lo hi d = true -> exists q, row_get d "roe" VNone = VNum q.
Proof.
  unfold roe_mask. destruct (row_get d "roe" VNone); try discriminate. eauto.
Qed.

Lemma band_order q :
  (py_ge q 0.20 = true -> py_ge q 0.15 = true) /\
  (py_ge q 0.15 = true -> py_ge q 0.10 = true).
Proof. split; intros H; apply py_ge_true; py_cases; lra. Qed.

Lemma bands_partition_numbers df :
  Permutation (List.filter roe_is_number df)
    (List.filter (roe_mask (Some 0.20) None) df
     ++ List.filter (roe_mask (Some 0.15) (Some 0.20)) df
     ++ List.filter (roe_mask (Some 0.10) (Some 0.15)) df
     ++ List.filter (roe_mask None (Some 0.10)) df).
Proof.
  induction df as [|d df IH]; [constructor|].
  cbn [List.filter]. destruct (roe_is_number d) eqn:En.
  - unfold roe_is_number in En.
    destruct (row_get d "roe" VNone) as [| |q| |] eqn:Hq; try discriminate En.
    destruct (roe_mask_number d q Hq) as (E1 & E2 & E3 & E4).
    rewrite E1, E2, E3, E4. destruct (band_order q) as [H1 H2].
    destruct (py_ge q 0.20) eqn:G1; cbn [negb andb].
    + rewrite (H2 (H1 eq_refl)), (H1 eq_refl). cbn [negb andb app].
      constructor. exact IH.
    + destruct (py_ge q 0.15) eqn:G2; cbn [negb andb].
      * rewrite (H2 eq_refl). cbn [negb andb].
        apply Permutation_cons_app. exact IH.
      * destruct (py_ge q 0.10) eqn:G3; cbn [negb andb].
        -- rewrite app_assoc. cbn [app]. apply Permutation_cons_app.
           rewrite <- app_assoc. exact IH.
        -- rewrite 2!app_assoc. apply Permutation_cons_app.
           rewrite <- !app_assoc. exact IH.
  - rewrite !(roe_mask_not_number d _ _ En). exact IH.
Qed.

Lemma filter_all_length {A} (f : A -> bool) (l : list A) :
  length (List.filter f l) = length l <-> forallb f l = true.
Proof.
  induction l as [|a l IH]; [split; reflexivity|].
  cbn [List.filter forallb]. pose proof (List.filter_length_le f l) as Hle.
  destruct (f a); cbn [length andb].
  - rewrite <- IH. split; intros H; lia.
  - split; [intros H; lia|discriminate].
Qed.

Lemma engine_band_rows df lo hi (P : gmap string pyval -> Prop) :
  Forall engine_row df ->
  (forall d q, row_get d "roe" VNone = VNum q ->
               d !! "tier"%string = Some (VTier (get_roe_tier q)) ->
               flagged (py_ge q 0.15) d ->
               roe_mask lo hi d = true -> P d) ->
  Forall P (List.filter (roe_mask lo hi) df).
Proof.
  intros H HP. apply Forall_forall. intros d Hd.
  apply list_elem_of_In, filter_In in Hd as [Hin Hm].
  apply list_elem_of_In in Hin.
  pose proof (proj1 (Forall_forall _ _) H d Hin) as He.
  destruct (roe_mask_is_number d lo hi Hm) as [q Hq].
  unfold engine_row in He. rewrite Hq in He. destruct He as [Ht Hf].
  exact (HP d q Hq Ht Hf Hm).
Qed.

(** The rows that the batch returns meet the hypotheses below. *)
Lemma scored_engine_row d : scored_row d -> engine_row d.
Proof.
  intros (q & Hq & Ht & Hf). unfold engine_row, row_get. rewrite Hq.
  split; assumption.
Qed.

Lemma batch_rows_engine self df out :
  (analyze_portfolio self df).2 = Ok out ->
  has_column out "roe" = true /\ Forall engine_row out.
Proof.
  intros H. apply batch_rows_scored in H as [Hne Hs].
  split; [apply scored_has_column; assumption|].
  eapply Forall_impl; [exact Hs|]. exact scored_engine_row.
Qed.

Lemma portfolio_bands_ok df :
  has_column df "roe" = true ->
  portfolio_bands df
    = Ok (mk_bands (length df)
            (List.filter (roe_mask (Some 0.20) None) df)
            (List.filter (roe_mask (Some 0.15) (Some 0.20)) df)
            (List.filter (roe_mask (Some 0.10) (Some 0.15)) df)
            (List.filter (roe_mask None (Some 0.10)) df)).
Proof.
  intros H. unfold portfolio_bands, select_roe. rewrite H. reflexivity.
Qed.

(** X23: on a result table with a [roe] column whose rows are as the engine
    writes them, the report's four bands (unicorns, strong, marginal, poor)
    are computed without an exception and partition exactly the rows whose
    ROE is a number: each such row is in one band, the rows of a band carry
    the matching tier (unicorn, strong, marginal, pass), and the four counts
    add up to the total if and only if no row lacks a numeric ROE (a row
    without one is in no band). *)
Theorem report_bands_partition_by_tier
    (results_df : list (gmap string pyval)) :
  has_column results_df "roe" = true ->
  Forall engine_row results_df ->
  exists b,
    portfolio_bands results_df = Ok b /\
    b_total b = length results_df /\
    Permutation (List.filter roe_is_number results_df)
      (b_unicorns b ++ b_strong b ++ b_marginal b ++ b_poor b) /\
    ((length (b_unicorns b) + length (b_strong b) + length (b_marginal b)
      + length (b_poor b) = b_total b)%nat
     <-> forallb roe_is_number results_df = true) /\
    Forall (has_tier unicorn) (b_unicorns b) /\
    Forall (has_tier strong) (b_strong b) /\
    Forall (has_tier marginal) (b_marginal b) /\
    Forall (has_tier pass) (b_poor b).
Proof.
  intros Hcol He. eexists. split; [apply portfolio_bands_ok; exact Hcol|].
  cbn [b_total b_unicorns b_strong b_marginal b_poor].
  split; [reflexivity|].
  pose proof (bands_partition_numbers results_df) as HP.
  split; [exact HP|]. split.
  - apply Permutation_length in HP. rewrite !length_app in HP.
    rewrite <- filter_all_length. split; intros H; lia.
  - repeat split; apply (engine_band_rows _ _ _ _ He);
      intros d q Hq Ht _ Hm; unfold has_tier; rewrite Ht;
      destruct (roe_mask_number d q Hq) as (E1 & E2 & E3 & E4);
      rewrite ?E1, ?E2, ?E3, ?E4 in Hm; unfold get_roe_tier;
      destruct (band_order q) as [H1 H2];
      destruct (py_ge q 0.20) eqn:G1, (py_ge q 0.15) eqn:G2,
        (py_ge q 0.10) eqn:G3;
      cbn in Hm; try discriminate Hm; try reflexivity;
      try (specialize (H1 eq_refl); discriminate H1);
      try (specialize (H2 eq_refl); discriminate H2).
Qed.

Lemma report_bands_partition_by_tier_witness :
  exists b,
    portfolio_bands report_table = Ok b /\
    b_total b = length report_table /\
    Permutation (List.filter roe_is_number report_table)
      (b_unicorns b ++ b_strong b ++ b_marginal b ++ b_poor b) /\
    ((length (b_unicorns b) + length (b_strong b) + length (b_marginal b)
      + length (b_poor b) = b_total b)%nat
     <-> forallb roe_is_number report_table = true) /\
    Forall (has_tier unicorn) (b_unicorns b) /\
    Forall (has_tier strong) (b_strong b) /\
    Forall (has_tier marginal) (b_marginal b) /\
    Forall (has_tier pass) (b_poor b).
Proof.
  apply (report_bands_partition_by_tier report_table);
    [vm_compute; reflexivity|].
  repeat (constructor; [vm_compute; split; reflexivity|]). constructor.
Defined.

Lemma flagged_is_flagged d b : flagged b d -> is_flagged d = b.
Proof. unfold flagged, is_flagged. intros ->. destruct b; reflexivity. Qed.

Lemma target_permutation df :
  Forall engine_row df ->
  Permutation
    (List.filter (roe_mask (Some 0.20) None) df
     ++ List.filter (roe_mask (Some 0.15) (Some 0.20)) df)
    (List.filter is_flagged df).
Proof.
  induction 1 as [|d df Hd _ IH]; [constructor|].
  cbn [List.filter]. unfold engine_row in Hd.
  destruct (row_get d "roe" VNone) as [| |q| |] eqn:Hq; try contradiction.
  - destruct Hd as [_ Hf]. rewrite (flagged_is_flagged d false Hf).
    assert (En : roe_is_number d = false)
      by (unfold roe_is_number; rewrite Hq; reflexivity).
    rewrite !(roe_mask_not_number d _ _ En). exact IH.
  - destruct Hd as [_ Hf]. rewrite (flagged_is_flagged d _ Hf).
    destruct (roe_mask_number d q Hq) as (E1 & E2 & _).
    rewrite E1, E2. destruct (band_order q) as [H1 _].
    destruct (py_ge q 0.20) eqn:G1; cbn [negb andb].
    + rewrite (H1 eq_refl). cbn [app]. constructor. exact IH.
    + destruct (py_ge q 0.15); cbn [negb andb]; [|exact IH].
      symmetry. apply Permutation_cons_app. symmetry. exact IH.
Qed.

(** X24: on a result table with a [roe] column whose rows are as the engine
    writes them, the exported target list (unicorns followed by strong buys)
    holds exactly the rows whose [meets_hurdle] flag is true: every row on
    the list is flagged, the list is a permutation of the flagged rows of the
    table (a row without a numeric ROE is not flagged and not on the list),
    and no marginal or poor row is flagged. *)
Theorem target_list_is_hurdle_rows (results_df : list (gmap string pyval)) :
  has_column results_df "roe" = true ->
  Forall engine_row results_df ->
  exists b,
    portfolio_bands results_df = Ok b /\
    Forall (flagged true) (target_props b) /\
    Forall (flagged false) (b_marginal b ++ b_poor b) /\
    Permutation (target_props b) (List.filter is_flagged results_df).
Proof.
  intros Hcol He. eexists. split; [apply portfolio_bands_ok; exact Hcol|].
  unfold target_props. cbn [b_unicorns b_strong b_marginal b_poor].
  split; [|split; [|apply target_permutation; exact He]];
    apply Forall_app; split; apply (engine_band_rows _ _ _ _ He);
    intros d q Hq _ Hf Hm;
    destruct (roe_mask_number d q Hq) as (E1 & E2 & E3 & E4);
    rewrite ?E1, ?E2, ?E3, ?E4 in Hm;
    destruct (band_order q) as [H1 H2];
    destruct (py_ge q 0.20) eqn:G1, (py_ge q 0.15) eqn:G2,
      (py_ge q 0.10) eqn:G3;
    cbn in Hm; try discriminate Hm; try exact Hf;
    try (specialize (H1 eq_refl); discriminate H1);
    try (specialize (H2 eq_refl); discriminate H2).
Qed.

Lemma target_list_is_hurdle_rows_witness :
  exists b,
    portfolio_bands report_table = Ok b /\
    Forall (flagged true) (target_props b) /\
    Forall (flagged false) (b_marginal b ++ b_poor b) /\
    Permutation (target_props b) (List.filter is_flagged report_table).
Proof.
  apply (target_list_is_hurdle_rows report_table); [vm_compute; reflexivity|].
  repeat (constructor; [vm_compute; split; reflexivity|]). constructor.
Defined.

Lemma band_share_ok (count total : nat) :
  (0 < total)%nat ->
  exists q, band_share count total = Ok q /\
            q * inject_Z (Z.of_nat total) == inject_Z (Z.of_nat count) * 100.
Proof.
  intros Ht. unfold band_share.
  assert (Hnz : ~ inject_Z (Z.of_nat total) == 0).
  { intros E. change 0 with (inject_Z 0) in E.
    apply (proj1 (inject_Z_injective _ _)) in E. lia. }
  rewrite py_div_ok by exact Hnz. cbn [mbind result_bind].
  eexists. split; [reflexivity|]. rewrite Qred_correct. field. exact Hnz.
Qed.

Lemma numbers_have_column df :
  df <> [] -> forallb roe_is_number df = true -> has_column df "roe" = true.
Proof.
  destruct df as [|d df]; [contradiction|]. intros _ H.
  cbn [forallb] in H. apply andb_true_iff in H as [H _].
  cbn [has_column existsb]. unfold roe_is_number, row_get in H.
  destruct (d !! "roe"%string) as [v|]; [|discriminate H].
  rewrite bool_decide_eq_true_2 by eauto. reflexivity.
Qed.

(** X25: on a non-empty result table in which every ROE is a number, the
    four percentages of the report are computed without a division by zero
    and add up to 100. *)
Theorem band_shares_sum_to_100 (results_df : list (gmap string pyval)) :
  results_df <> [] ->
  forallb roe_is_number results_df = true ->
  exists b su ss sm sp,
    portfolio_bands results_df = Ok b /\
    band_share (length (b_unicorns b)) (b_total b) = Ok su /\
    band_share (length (b_strong b)) (b_total b) = Ok ss /\
    band_share (length (b_marginal b)) (b_total b) = Ok sm /\
    band_share (length (b_poor b)) (b_total b) = Ok sp /\
    su + ss + sm + sp == 100.
Proof.
  intros Hne Hnum.
  pose proof (bands_partition_numbers results_df) as HP.
  apply Permutation_length in HP. rewrite !length_app in HP.
  rewrite (proj2 (filter_all_length _ _) Hnum) in HP.
  assert (Ht : (0 < length results_df)%nat).
  { destruct results_df; [contradiction|cbn; lia]. }
  eexists.
  set (u := length (List.filter (roe_mask (Some 0.20) None) results_df)) in *.
  set (s := length (List.filter (roe_mask (Some 0.15) (Some 0.20))
                      results_df)) in *.
  set (m := length (List.filter (roe_mask (Some 0.10) (Some 0.15))
                      results_df)) in *.
  set (p := length (List.filter (roe_mask None (Some 0.10)) results_df)) in *.
  destruct (band_share_ok u _ Ht) as (su & Hu & Eu).
  destruct (band_share_ok s _ Ht) as (ss & Hs' & Es).
  destruct (band_share_ok m _ Ht) as (sm & Hm & Em).
  destruct (band_share_ok p _ Ht) as (sp & Hp & Ep).
  exists su, ss, sm, sp.
  split; [apply portfolio_bands_ok, numbers_have_column; assumption|].
  cbn [b_total b_unicorns b_strong b_marginal b_poor].
  split; [exact Hu|]. split; [exact Hs'|]. split; [exact Hm|].
  split; [exact Hp|].
  set (t := inject_Z (Z.of_nat (length results_df))) in *.
  assert (Hsum : inject_Z (Z.of_nat u) + inject_Z (Z.of_nat s)
                 + inject_Z (Z.of_nat m) + inject_Z (Z.of_nat p) == t).
  { unfold t. rewrite <- !inject_Z_plus, <- !Nat2Z.inj_add.
    apply inject_Z_injective. lia. }
  assert (Htpos : 0 < t).
  { unfold t. change 0 with (inject_Z 0). rewrite <- Zlt_Qlt. lia. }
  apply (Qmult_inj_r _ _ t); [lra|].
  assert (E : (su + ss + sm + sp) * t
              == su * t + ss * t + sm * t + sp * t) by ring.
  rewrite E, Eu, Es, Em, Ep.
  assert (E' : inject_Z (Z.of_nat u) * 100 + inject_Z (Z.of_nat s) * 100
               + inject_Z (Z.of_nat m) * 100 + inject_Z (Z.of_nat p) * 100
               == (inject_Z (Z.of_nat u) + inject_Z (Z.of_nat s)
                   + inject_Z (Z.of_nat m) + inject_Z (Z.of_nat p)) * 100)
    by ring.
  rewrite E', Hsum. ring.
Qed.

Lemma band_shares_sum_to_100_witness :
  exists b su ss sm sp,
    portfolio_bands scored_table = Ok b /\
    band_share (length (b_unicorns b)) (b_total b) = Ok su /\
    band_share (length (b_strong b)) (b_total b) = Ok ss /\
    band_share (length (b_marginal b)) (b_total b) = Ok sm /\
    band_share (length (b_poor b)) (b_total b) = Ok sp /\
    su + ss + sm + sp == 100.
Proof.
  apply (band_shares_sum_to_100 scored_table);
    [discriminate|vm_compute; reflexivity].
Defined.

Lemma count_between_select df lo hi :
  count_between (map (fun r => row_get r "roe" VNone) df) lo hi
    = length (List.filter (roe_mask (Some lo) hi) df).
Proof.
  unfold count_between. induction df as [|d df IH]; [reflexivity|].
  cbn [map List.filter]. unfold roe_mask at 1.
  destruct (row_get d "roe" VNone); try exact IH.
  match goal with
  | |- context [if ?c then _ else _] => destruct c
  end; cbn [length]; [f_equal|]; exact IH.
Qed.

(** X26: the counts of unicorns, strong and marginal properties that the
    batch logs on completion are the sizes of the report's bands over the
    returned table. *)
Theorem logged_counts_match_report (self : ROECalculator)
    (df out : list (gmap string pyval)) :
  (analyze_portfolio self df).2 = Ok out ->
  exists b,
    portfolio_bands out = Ok b /\
    last (analyze_portfolio self df).1
      = Some (InfoComplete (length (b_unicorns b)) (length (b_strong b))
                (length (b_marginal b))).
Proof.
  intros H. pose proof (batch_rows_scored self df out H) as [Hne Hs].
  rewrite analyze_portfolio_unfold in H |- *. cbv zeta in H |- *.
  unfold df_getitem in H |- *.
  destruct (has_column (omap (row_result self) df) "roe"); [|discriminate H].
  injection H as <-.
  eexists. split; [apply portfolio_bands_scored; assumption|].
  cbn [fst b_unicorns b_strong b_marginal].
  rewrite !count_between_select.
  rewrite last_snoc. reflexivity.
Qed.

Lemma logged_counts_match_report_witness :
  exists b,
    portfolio_bands (omap (row_result interest_free_calculator) two_row_table)
      = Ok b /\
    last (analyze_portfolio interest_free_calculator two_row_table).1
      = Some (InfoComplete (length (b_unicorns b)) (length (b_strong b))
                (length (b_marginal b))).
Proof.
  apply (logged_counts_match_report interest_free_calculator two_row_table).
  rewrite analyze_portfolio_result. vm_compute (forallb _ _). reflexivity.
Defined.
